(** * slack-edge: payload classification, message predicates, the Assistant
      coordinator and the default thread-context store

    A shallow embedding of
    - [src/src/utility/message-events.ts]: [isPostedMessageEvent], and
      [src/unnamed/part_005]: [isFunctionExecutedEvent]
      (module [MessageEvents]);
    - [src/src/request/payload-types.ts]: [enum PayloadType], with a
      classifier over it (module [PayloadTypes]);
    - the thread-context store, [src/unnamed/part_004], with
      [AssistantThreadContext] (second part of
      [src/src/request/payload-types.ts]): [AssistantThreadContextStore]
      and [class DefaultAssistantThreadContextStore]
      (module [ThreadContextStore]);
    - the assistant, [src/unnamed/part_003]: [class Assistant]
      (module [Assistant]).

    Asynchronous functions are modelled in a state-and-exception monad
    [Async]: an [await] is a sequential bind, a rejected promise is the
    [Rejected] completion, and [try]/[catch] is [try_catch].  Interleaving
    of concurrent requests is outside the model. *)

From stdpp Require Import base strings list gmap.

Open Scope string_scope.
Open Scope list_scope.

(* ===================================================================== *)
(** * Part I: definitions                                                 *)
(* ===================================================================== *)

(** ** JavaScript values that can be thrown, and JSON data *)

Module Js.

(** The values a [catch (e)] clause of the sources can receive, as far as
    the catch blocks tell them apart: [undefined], [null], a primitive
    (represented by a string) and an [Error] object. *)
Inductive JsValue :=
| JsUndefined
| JsNull
| JsString (s : string)
| JsError (name message : string) (stack : option string).

#[global] Instance JsValue_eq_dec : EqDecision JsValue.
Proof. solve_decision. Defined.

(** The [TypeError] an engine raises for a property read on [undefined] or
    [null].  An engine attaches a stack to it: its first line, the name and
    the message, is given here; the frames that follow it depend on the
    engine and on the place of the call and are left out. *)
Definition TypeError (message : string) : JsValue :=
  JsError "TypeError" message (Some ("TypeError: " +:+ message)).

Definition cannot_read (prop : string) (v : string) : JsValue :=
  TypeError ("Cannot read properties of " +:+ v +:+ " (reading '" +:+ prop +:+ "')").

(** [(e as Error).stack]: the cast is erased at run time, so this is a plain
    property read.  It throws on [undefined] and [null], yields [undefined]
    on a primitive, and the [stack] of an [Error]. *)
Definition get_stack (e : JsValue) : JsValue + option string :=
  match e with
  | JsUndefined => inl (cannot_read "stack" "undefined")
  | JsNull => inl (cannot_read "stack" "null")
  | JsString _ => inr None
  | JsError _ _ stack => inr stack
  end.

(** String conversion inside a template literal, [`${v}`]. *)
Definition template_of_option (v : option string) : string :=
  match v with
  | Some s => s
  | None => "undefined"
  end.

Definition to_string (e : JsValue) : string :=
  match e with
  | JsUndefined => "undefined"
  | JsNull => "null"
  | JsString s => s
  | JsError name message _ =>
      if decide (name = "") then message
      else if decide (message = "") then name
      else name +:+ ": " +:+ message
  end.

(** Decoded JSON. *)
#[local] Unset Elimination Schemes.
Inductive Json :=
| JNull
| JBool (b : bool)
| JNumber (n : Z)
| JStr (s : string)
| JArray (items : list Json)
| JObject (fields : list (string * Json)).
#[local] Set Elimination Schemes.

End Js.

(** ** Asynchronous computations *)

Module Async.
Import Js.

Inductive Completion (A : Type) :=
| Resolved (a : A)
| Rejected (e : JsValue).
Arguments Resolved {A} a.
Arguments Rejected {A} e.

(** An [async] function over a world of type [S]. *)
Definition Async (S A : Type) : Type := S -> S * Completion A.

Definition ret {S A} (a : A) : Async S A := fun s => (s, Resolved a).

Definition throw {S A} (e : JsValue) : Async S A := fun s => (s, Rejected e).

Definition bind {S A B} (c : Async S A) (k : A -> Async S B) : Async S B :=
  fun s =>
    match c s with
    | (s', Resolved a) => k a s'
    | (s', Rejected e) => (s', Rejected e)
    end.

(** [try { c } catch (e) { h e }] *)
Definition try_catch {S A} (c : Async S A) (h : JsValue -> Async S A) : Async S A :=
  fun s =>
    match c s with
    | (s', Resolved a) => (s', Resolved a)
    | (s', Rejected e) => h e s'
    end.

Definition modify {S} (f : S -> S) : Async S unit := fun s => (f s, Resolved tt).

End Async.

Declare Scope async_scope.
Delimit Scope async_scope with async.
Notation "x <- c ;; k" := (Async.bind c (fun x => k))
  (at level 100, c at next level, right associativity) : async_scope.
Notation "c ;;; k" := (Async.bind c (fun _ => k))
  (at level 100, right associativity) : async_scope.

(** ** src/src/utility/message-events.ts *)

Module MessageEvents.

(** The argument type [{ type: string; subtype?: string }]. *)
Record Event := {
  type : string;
  subtype : option string;
}.

Definition isPostedMessageEvent (event : Event) : bool :=
  bool_decide (subtype event = None)
  || bool_decide (subtype event = Some "bot_message")
  || bool_decide (subtype event = Some "file_share")
  || bool_decide (subtype event = Some "thread_broadcast").

(** [isFunctionExecutedEvent] (src/unnamed/part_005).  Its argument type is
    [{ type: string }], which every [Event] meets. *)
Definition isFunctionExecutedEvent (event : Event) : bool :=
  bool_decide (type event = "function_executed").

End MessageEvents.

(** ** src/src/request/payload-types.ts, and the payload classifier *)

Module PayloadTypes.
Import Js.

Inductive PayloadType :=
| BlockAction
| BlockSuggestion
| MessageShortcut
| GlobalShortcut
| EventsAPI
| ViewSubmission
| ViewClosed
| AppRateLimited.

(** The string each enum member stands for. *)
Definition value (t : PayloadType) : string :=
  match t with
  | BlockAction => "block_actions"
  | BlockSuggestion => "block_suggestion"
  | MessageShortcut => "message_action"
  | GlobalShortcut => "shortcut"
  | EventsAPI => "event_callback"
  | ViewSubmission => "view_submission"
  | ViewClosed => "view_closed"
  | AppRateLimited => "app_rate_limited"
  end.

Definition all : list PayloadType :=
  [BlockAction; BlockSuggestion; MessageShortcut; GlobalShortcut;
   EventsAPI; ViewSubmission; ViewClosed; AppRateLimited].

(** The enum member whose value is [s], if any. *)
Definition of_value (s : string) : option PayloadType :=
  List.find (fun t => bool_decide (value t = s)) all.

(** The nine payload variants: the eight typed ones and the slash
    command, which has no [type] property. *)
Inductive Variant :=
| Typed (t : PayloadType)
| SlashCommand.

Inductive ClassificationError :=
| UnknownPayloadType
| MalformedPayload.

Record Payload := {
  variant : Variant;
  body : gmap string Json;
}.

(** The non-optional properties of [interface SlashCommand]
    (src/unnamed/part_001). *)
Definition SlashCommand_required : list string :=
  ["token"; "command"; "text"; "response_url"; "trigger_id"; "user_id";
   "user_name"; "team_id"; "team_domain"; "channel_id"; "channel_name";
   "api_app_id"].

(** The optional properties of [interface SlashCommand]. *)
Definition SlashCommand_optional : list string :=
  ["enterprise_id"; "enterprise_name"; "is_enterprise_install"].

Definition has_field (rawBody : gmap string Json) (k : string) : bool :=
  bool_decide (is_Some (rawBody !! k)).

(** Modelled from the spec: the classifier [classify(rawBody) -> Payload] of
    section 4.1; the function that classifies a decoded body is not among
    the sources.  Step 1: a [command] field and no [type] field is a slash
    command.  Step 2: otherwise the [type] field is mapped through the
    closed enumeration, an unrecognised tag is [UnknownPayloadType]. *)
Definition variant_of (rawBody : gmap string Json) : ClassificationError + Variant :=
  if has_field rawBody "command" && negb (has_field rawBody "type") then
    inr SlashCommand
  else
    match rawBody !! "type" with
    | Some (JStr tag) =>
        match of_value tag with
        | Some t => inr (Typed t)
        | None => inl UnknownPayloadType
        end
    | _ => inl UnknownPayloadType
    end.

(** Modelled from the spec: step 3 of section 4.1, a variant whose required
    fields are absent is [MalformedPayload].  Which fields a variant
    requires is a data contract, taken as the parameter [required]. *)
Definition classify (required : Variant -> list string)
    (rawBody : gmap string Json) : ClassificationError + Payload :=
  match variant_of rawBody with
  | inl err => inl err
  | inr v =>
      if forallb (has_field rawBody) (required v) then
        inr {| variant := v; body := rawBody |}
      else inl MalformedPayload
  end.

(** The [type] literal a payload interface declares, for the interfaces
    among the sources: [BlockSuggestion] and [GlobalShortcut]
    (src/src_deno/request/payload-types.ts), [MessageShortcut]
    (src/src/request/payload/message-shortcut.ts), [ViewSubmission]
    (src/unnamed/part_002), [ViewClosed] (src/unnamed/part_000) and
    [AppRateLimited] (src/src/request/payload/app-rate-limited.ts).  The
    interface has the name of the enum member. *)
Definition interface_type (t : PayloadType) : option string :=
  match t with
  | BlockAction => None
  | BlockSuggestion => Some "block_suggestion"
  | MessageShortcut => Some "message_action"
  | GlobalShortcut => Some "shortcut"
  | EventsAPI => None
  | ViewSubmission => Some "view_submission"
  | ViewClosed => Some "view_closed"
  | AppRateLimited => Some "app_rate_limited"
  end.

(** *** Example bodies *)

(** A body that holds only the [command]. *)
Definition command_only : gmap string Json := {[ "command" := JStr "/todo" ]}.

End PayloadTypes.

(** ** The thread-context store: src/unnamed/part_004 *)

Module ThreadContextStore.
Import Js Async.
Local Open Scope async_scope.

(** [interface AssistantThreadContext]; [enterprise_id] is [string | null]. *)
Record AssistantThreadContext := {
  enterprise_id : option string;
  team_id : string;
  context_channel_id : string;
}.

#[global] Instance AssistantThreadContext_eq_dec : EqDecision AssistantThreadContext.
Proof. solve_decision. Defined.

(** The object spread [{ ...newContext }]: a fresh object with the same
    properties. *)
Definition spread (c : AssistantThreadContext) : AssistantThreadContext :=
  {| enterprise_id := enterprise_id c;
     team_id := team_id c;
     context_channel_id := context_channel_id c |}.

Record AssistantThreadKey := {
  channel_id : string;
  thread_ts : string;
}.

(** [interface AssistantThreadContextStore], over a world of type [S]. *)
Record AssistantThreadContextStore (S : Type) := {
  store_save : AssistantThreadKey -> AssistantThreadContext -> Async S unit;
  store_find : AssistantThreadKey -> Async S (option AssistantThreadContext);
}.
Arguments store_save {S} _ _ _.
Arguments store_find {S} _ _.

(** *** The part of slack-web-api-client the store uses

    [AnyMessageBlock], [MessageMetadata], the messages of a
    [conversations.replies] response and the two request shapes.  The
    package is an external dependency; its types are given here as far as
    the store reads or writes them. *)

Definition AnyMessageBlock : Type := Json.

Record MessageMetadata := {
  event_type : string;
  event_payload : AssistantThreadContext;
}.

(** A message of a response.  [msg_subtype] is [None] when the object has no
    ["subtype"] key at all, and [Some v] when the key is there with value
    [v]; the other properties are [undefined] when [None]. *)
Record Message := {
  msg_subtype : option Json;
  msg_user : option string;
  msg_ts : option string;
  msg_text : option string;
  msg_blocks : option (list AnyMessageBlock);
  msg_metadata : option MessageMetadata;
}.

Record ConversationsRepliesRequest := {
  channel : string;
  ts : string;
  oldest : string;
  include_all_metadata : bool;
  limit : nat;
}.

Record ConversationsRepliesResponse := {
  messages : option (list Message);
}.

(** The argument of [chat.update] as [save] builds it: the properties of the
    spread [...reply] ([channel_id], [ts], [text], [blocks], and [metadata],
    which the later [metadata:] entry overrides) and [channel]. *)
Record ChatUpdateRequest := {
  update_channel_id : string;
  update_ts : option string;
  update_text : option string;
  update_blocks : option (list AnyMessageBlock);
  update_channel : string;
  update_metadata : MessageMetadata;
}.

(** [SlackAPIClient]: the two methods the store calls, over a client state
    of type [C].  A call may reject. *)
Class SlackAPIClient (C : Type) := {
  conversations_replies : ConversationsRepliesRequest -> Async C ConversationsRepliesResponse;
  chat_update : ChatUpdateRequest -> Async C unit;
}.

(** *** The world a store runs in *)

Inductive ApiCall :=
| RepliesCall (request : ConversationsRepliesRequest)
| UpdateCall (request : ChatUpdateRequest).

(** The client, a ghost record of the API calls made so far, and the lines
    written with [console.log]. *)
Record Env (C : Type) := {
  client : C;
  calls : list ApiCall;
  console : list string;
}.
Arguments client {C} _.
Arguments calls {C} _.
Arguments console {C} _.

(** [interface FirstReply].  [ts], [text] and [blocks] are read with a
    non-null assertion, which is erased at run time: they are [undefined]
    when the message lacks them. *)
Record FirstReply := {
  reply_channel_id : string;
  reply_ts : option string;
  reply_text : option string;
  reply_blocks : option (list AnyMessageBlock);
  reply_metadata : option MessageMetadata;
}.

(** [class DefaultAssistantThreadContextStore]: [#client] is the client of
    the world, [#thisBotUserId] is kept here. *)
Record DefaultAssistantThreadContextStore := {
  thisBotUserId : string;
}.

Section Store.
Context {C : Type} `{SlackAPIClient C}.

Definition api_replies (request : ConversationsRepliesRequest)
  : Async (Env C) ConversationsRepliesResponse :=
  fun env =>
    let '(c, r) := conversations_replies request (client env) in
    ({| client := c;
        calls := calls env ++ [RepliesCall request];
        console := console env |}, r).

Definition api_update (request : ChatUpdateRequest) : Async (Env C) unit :=
  fun env =>
    let '(c, r) := chat_update request (client env) in
    ({| client := c;
        calls := calls env ++ [UpdateCall request];
        console := console env |}, r).

Definition console_log (line : string) : Async (Env C) unit :=
  modify (fun env =>
    {| client := client env;
       calls := calls env;
       console := console env ++ [line] |}).

(** The argument of [conversations.replies] in [#findFirstAssistantReply]. *)
Definition replies_request (key : AssistantThreadKey) : ConversationsRepliesRequest :=
  {| channel := channel_id key;
     ts := thread_ts key;
     oldest := thread_ts key;
     include_all_metadata := true;
     limit := 4 |}.

(** [!("subtype" in message) && message.user === this.#thisBotUserId] *)
Definition is_assistant_reply (this : DefaultAssistantThreadContextStore)
    (message : Message) : bool :=
  negb (bool_decide (is_Some (msg_subtype message)))
  && bool_decide (msg_user message = Some (thisBotUserId this)).

Definition to_first_reply (key : AssistantThreadKey) (message : Message) : FirstReply :=
  {| reply_channel_id := channel_id key;
     reply_ts := msg_ts message;
     reply_text := msg_text message;
     reply_blocks := msg_blocks message;
     reply_metadata := msg_metadata message |}.

(** The [for (const message of response.messages)] loop with its early
    [return]. *)
Fixpoint first_assistant_reply (this : DefaultAssistantThreadContextStore)
    (key : AssistantThreadKey) (msgs : list Message) : option FirstReply :=
  match msgs with
  | [] => None
  | message :: rest =>
      if is_assistant_reply this message then Some (to_first_reply key message)
      else first_assistant_reply this key rest
  end.

Definition findFirstAssistantReply (this : DefaultAssistantThreadContextStore)
    (key : AssistantThreadKey) : Async (Env C) (option FirstReply) :=
  try_catch
    (response <- api_replies (replies_request key) ;;
     match messages response with
     | Some msgs => ret (first_assistant_reply this key msgs)
     | None => ret None
     end)
    (fun e =>
       console_log ("Failed to fetch conversations.replies API result: " +:+ to_string e) ;;;
       ret None).

(** The argument of [chat.update] in [save]. *)
Definition update_request (reply : FirstReply) (newContext : AssistantThreadContext)
  : ChatUpdateRequest :=
  {| update_channel_id := reply_channel_id reply;
     update_ts := reply_ts reply;
     update_text := reply_text reply;
     update_blocks := reply_blocks reply;
     update_channel := reply_channel_id reply;
     update_metadata :=
       {| event_type := "assistant_thread_context";
          event_payload := spread newContext |} |}.

Definition save (this : DefaultAssistantThreadContextStore)
    (key : AssistantThreadKey) (newContext : AssistantThreadContext)
  : Async (Env C) unit :=
  reply <- findFirstAssistantReply this key ;;
  match reply with
  | Some reply => api_update (update_request reply newContext)
  | None => ret tt
  end.

Definition find (this : DefaultAssistantThreadContextStore)
    (key : AssistantThreadKey) : Async (Env C) (option AssistantThreadContext) :=
  reply <- findFirstAssistantReply this key ;;
  match reply with
  | Some reply => ret (event_payload <$> reply_metadata reply)
  | None => ret None
  end.

(** [DefaultAssistantThreadContextStore implements AssistantThreadContextStore] *)
Definition as_store (this : DefaultAssistantThreadContextStore)
  : AssistantThreadContextStore (Env C) :=
  {| store_save := save this; store_find := find this |}.

End Store.

(** *** What the store expects of the client

    [chat.update] rewrites the text, blocks and metadata of the message with
    the given timestamp, where the request provides them, and leaves the
    rest of the message as it is. *)
Definition edit (u : ChatUpdateRequest) (m : Message) : Message :=
  if bool_decide (is_Some (update_ts u) /\ msg_ts m = update_ts u) then
    {| msg_subtype := msg_subtype m;
       msg_user := msg_user m;
       msg_ts := msg_ts m;
       msg_text := match update_text u with Some t => Some t | None => msg_text m end;
       msg_blocks := match update_blocks u with Some b => Some b | None => msg_blocks m end;
       msg_metadata := Some (update_metadata u) |}
  else m.

(** A client shows an update to later readers: when a thread is read,
    one of its channel's messages is updated, and the thread is read again,
    the second reading is the first one with the update applied. *)
Class UpdatesAreVisible (C : Type) `{SlackAPIClient C} : Prop :=
  updates_are_visible :
    forall (q : ConversationsRepliesRequest) (u : ChatUpdateRequest)
           (c0 c1 c2 c3 : C) (msgs : list Message) (r : ConversationsRepliesResponse),
      conversations_replies q c0 = (c1, Resolved {| messages := Some msgs |}) ->
      chat_update u c1 = (c2, Resolved tt) ->
      update_channel u = channel q ->
      conversations_replies q c2 = (c3, Resolved r) ->
      messages r = Some (edit u <$> msgs).

(** *** An in-memory workspace: a client to run the store against

    The messages posted so far, oldest first, each with its channel and the
    thread it belongs to, and a schedule of outages: every API call takes
    the head of the schedule and rejects with it when it is an error. *)
Record Posted := {
  posted_channel : string;
  posted_thread_ts : string;
  posted_message : Message;
}.

Record Workspace := {
  history : list Posted;
  outages : list (option JsValue);
}.

Definition next_outage (ws : Workspace) : option JsValue * Workspace :=
  match outages ws with
  | [] => (None, ws)
  | o :: rest => (o, {| history := history ws; outages := rest |})
  end.

Definition in_window (q : ConversationsRepliesRequest) (p : Posted) : bool :=
  bool_decide (posted_channel p = channel q)
  && bool_decide (posted_thread_ts p = ts q)
  && match msg_ts (posted_message p) with
     | Some t => String.leb (oldest q) t
     | None => false
     end.

Definition workspace_replies (q : ConversationsRepliesRequest)
  : Async Workspace ConversationsRepliesResponse :=
  fun ws =>
    match next_outage ws with
    | (Some e, ws') => (ws', Rejected e)
    | (None, ws') =>
        (ws', Resolved {| messages :=
           Some (take (limit q)
                   (posted_message <$> List.filter (in_window q) (history ws'))) |})
    end.

Definition is_target (u : ChatUpdateRequest) (p : Posted) : bool :=
  bool_decide (posted_channel p = update_channel u)
  && bool_decide (is_Some (update_ts u) /\ msg_ts (posted_message p) = update_ts u).

Definition edit_posted (u : ChatUpdateRequest) (p : Posted) : Posted :=
  if is_target u p then
    {| posted_channel := posted_channel p;
       posted_thread_ts := posted_thread_ts p;
       posted_message := edit u (posted_message p) |}
  else p.

Definition message_not_found : JsValue :=
  JsError "SlackAPIError" "message_not_found" None.

Definition workspace_update (u : ChatUpdateRequest) : Async Workspace unit :=
  fun ws =>
    match next_outage ws with
    | (Some e, ws') => (ws', Rejected e)
    | (None, ws') =>
        if existsb (is_target u) (history ws') then
          ({| history := edit_posted u <$> history ws'; outages := outages ws' |},
           Resolved tt)
        else (ws', Rejected message_not_found)
    end.

#[global] Instance Workspace_client : SlackAPIClient Workspace :=
  {| conversations_replies := workspace_replies;
     chat_update := workspace_update |}.

Definition initial_env {C : Type} (c : C) : Env C :=
  {| client := c; calls := []; console := [] |}.

(** *** The lookup window and the anchor of a thread

    The window of a thread is what [conversations.replies] answers to the
    request of the lookup (nothing, when the call rejects or the response
    has no [messages]); the anchor is the first message of the window that
    has no ["subtype"] key and whose user is the bot. *)
Definition lookup_window {C : Type} `{SlackAPIClient C}
    (key : AssistantThreadKey) (c : C) : list Message :=
  match (conversations_replies (replies_request key) c).2 with
  | Resolved response => default [] (messages response)
  | Rejected _ => []
  end.

Definition bot_reply (this : DefaultAssistantThreadContextStore) (m : Message) : Prop :=
  msg_subtype m = None /\ msg_user m = Some (thisBotUserId this).

Definition anchor {C : Type} `{SlackAPIClient C}
    (this : DefaultAssistantThreadContextStore) (key : AssistantThreadKey) (c : C)
  : option Message :=
  List.find (is_assistant_reply this) (lookup_window key c).

(** The line the lookup logs when its call rejects with [e]. *)
Definition lookup_failure (e : JsValue) : string :=
  "Failed to fetch conversations.replies API result: " +:+ to_string e.

(** *** Example data: an assistant thread in a direct-message channel *)

Definition example_store : DefaultAssistantThreadContextStore :=
  {| thisBotUserId := "U0BOT" |}.

Definition example_key : AssistantThreadKey :=
  {| channel_id := "D024BE91L"; thread_ts := "1726133698.626339" |}.

Definition example_context : AssistantThreadContext :=
  {| enterprise_id := None; team_id := "T0001"; context_channel_id := "C2147483705" |}.

Definition plain_message (author ts text : string) : Message :=
  {| msg_subtype := None; msg_user := Some author; msg_ts := Some ts;
     msg_text := Some text; msg_blocks := None; msg_metadata := None |}.

Definition in_example_thread (m : Message) : Posted :=
  {| posted_channel := "D024BE91L"; posted_thread_ts := "1726133698.626339";
     posted_message := m |}.

(** The root message, a question of the user, and the bot's answer. *)
Definition example_history : list Posted :=
  [in_example_thread (plain_message "U1USER" "1726133698.626339" "New Assistant Thread");
   in_example_thread (plain_message "U1USER" "1726133700.887259" "What does SLACK stand for?");
   in_example_thread (plain_message "U0BOT" "1726133701.028589" "Searchable Log of All Communication and Knowledge")].

(** Only the user has written so far. *)
Definition quiet_history : list Posted := take 2 example_history.

Definition example_anchor : Message :=
  plain_message "U0BOT" "1726133701.028589"
    "Searchable Log of All Communication and Knowledge".

Definition rate_limited : JsValue :=
  JsError "SlackAPIError" "ratelimited" None.

Definition example_workspace : Workspace :=
  {| history := example_history; outages := [] |}.

Definition quiet_workspace : Workspace :=
  {| history := quiet_history; outages := [] |}.

(** A context captured later, in another channel. *)
Definition later_context : AssistantThreadContext :=
  {| enterprise_id := Some "E0001"; team_id := "T0001";
     context_channel_id := "C0000000042" |}.

(** A client with fixed answers: every reading is answered with the same
    messages, however many were asked for, and every update is accepted. *)
Record Canned := {
  canned : list Message;
}.

#[global] Instance Canned_client : SlackAPIClient Canned :=
  {| conversations_replies := fun _ c => (c, Resolved {| messages := Some (canned c) |});
     chat_update := fun _ c => (c, Resolved tt) |}.



(** The lookup goes through, the call after it is rate limited. *)
Definition workspace_failing_update : Workspace :=
  {| history := example_history; outages := [None; Some rate_limited] |}.

End ThreadContextStore.

(** ** The assistant: src/unnamed/part_003 *)

Module Assistant.
Import Js Async.
Import ThreadContextStore.
Local Open Scope async_scope.

(** The four listeners an [Assistant] holds. *)
Inductive Slot :=
| ThreadStarted
| ThreadContextChanged
| UserMessage
| BotMessage.

#[global] Instance Slot_eq_dec : EqDecision Slot.
Proof. solve_decision. Defined.

(** The decoded request body, [req.body]. *)
Definition SlackRequestBody : Type := gmap string Json.

(** [req.payload]: the properties of the inner event the listeners read.
    [subtype] and [user] are [undefined] when [None]; [assistant_thread]
    is there for the two thread events. *)
Record AssistantThread := {
  thread_context : AssistantThreadContext;
}.

Record EventPayload := {
  subtype : option string;
  user : option string;
  assistant_thread : option AssistantThread;
}.

Record SayArgs := { text : string }.

Record SetSuggestedPromptsArgs := {
  title : string;
  prompts : list string;
}.

(** [req.context], over the world [U] that user code acts on: the bot user
    id of the installation and the utilities the default listeners call. *)
Record Context (U : Type) := {
  botUserId : option string;
  say : SayArgs -> Async U unit;
  setSuggestedPrompts : SetSuggestedPromptsArgs -> Async U unit;
  saveThreadContextStore : AssistantThreadContext -> Async U unit;
}.
Arguments botUserId {U} _.
Arguments say {U} _ _.
Arguments setSuggestedPrompts {U} _ _.
Arguments saveThreadContextStore {U} _ _.

Record Request (U : Type) := {
  body : SlackRequestBody;
  payload : EventPayload;
  context : Context U;
}.
Arguments body {U} _.
Arguments payload {U} _.
Arguments context {U} _.

(** A handler the user passes in ([AssistantThreadStartedHandler],
    [AssistantUserMessageHandler], ...): an asynchronous function of the
    request.  [label] is a ghost name, used to record which function a
    listener called. *)
Record Handler (U : Type) := {
  label : string;
  run : Request U -> Async U unit;
}.
Arguments label {U} _.
Arguments run {U} _ _.

(** The world a listener runs in: the user's world, the lines written with
    [console.error], and the ghost record of calls to user handlers. *)
Record Runtime (U : Type) := {
  world : U;
  errors : list string;
  invoked : list (Slot * string);
}.
Arguments world {U} _.
Arguments errors {U} _.
Arguments invoked {U} _.

(** [EventLazyHandler<..., E>] *)
Definition EventLazyHandler (U : Type) : Type := Request U -> Async (Runtime U) unit.

Module AssistantOptions.
Record t (U : Type) := {
  threadContextStore : option (AssistantThreadContextStore U);
  threadStarted : option (Handler U);
  threadContextChanged : option (Handler U);
  userMessage : option (Handler U);
  botMessage : option (Handler U);
}.
Arguments threadContextStore {U} _.
Arguments threadStarted {U} _.
Arguments threadContextChanged {U} _.
Arguments userMessage {U} _.
Arguments botMessage {U} _.

(** [options = {}] *)
Definition empty {U : Type} : t U :=
  {| threadContextStore := None; threadStarted := None;
     threadContextChanged := None; userMessage := None; botMessage := None |}.
End AssistantOptions.

(** [class Assistant] *)
Record Assistant (U : Type) := {
  threadContextStore : option (AssistantThreadContextStore U);
  threadStartedHandler : EventLazyHandler U;
  threadContextChangedHandler : EventLazyHandler U;
  userMessageHandler : EventLazyHandler U;
  botMessageHandler : EventLazyHandler U;
}.
Arguments threadContextStore {U} _.
Arguments threadStartedHandler {U} _ _.
Arguments threadContextChangedHandler {U} _ _.
Arguments userMessageHandler {U} _ _.
Arguments botMessageHandler {U} _ _.

Section Assistant.
Context {U : Type}.

(** [isAssitantThreadEvent] of [../context/context], which is not among the
    sources: a parameter. *)
Variable isAssitantThreadEvent : SlackRequestBody -> bool.

(** User code runs in the user's world. *)
Definition in_world {A : Type} (c : Async U A) : Async (Runtime U) A :=
  fun rt =>
    let '(u, r) := c (world rt) in
    ({| world := u; errors := errors rt; invoked := invoked rt |}, r).

(** [await handler(req)], recorded. *)
Definition call (slot : Slot) (handler : Handler U) (req : Request U)
  : Async (Runtime U) unit :=
  modify (fun rt =>
    {| world := world rt; errors := errors rt;
       invoked := invoked rt ++ [(slot, label handler)] |}) ;;;
  in_world (run handler req).

Definition console_error (line : string) : Async (Runtime U) unit :=
  modify (fun rt =>
    {| world := world rt; errors := errors rt ++ [line]; invoked := invoked rt |}).

(** The catch block of every listener:
    [console.error(`Failed to execute <name> listener: ${(e as Error).stack}`)]. *)
Definition report (name : string) (e : JsValue) : Async (Runtime U) unit :=
  match get_stack e with
  | inl type_error => throw type_error
  | inr stack =>
      console_error ("Failed to execute " +:+ name +:+ " listener: " +:+ template_of_option stack)
  end.

(** [subtype === undefined || subtype === "file_share"] *)
Definition user_message_guard (req : Request U) : bool :=
  bool_decide (subtype (payload req) = None)
  || bool_decide (subtype (payload req) = Some "file_share").

(** [subtype === undefined && payload.user === context.botUserId] *)
Definition bot_message_guard (req : Request U) : bool :=
  bool_decide (subtype (payload req) = None)
  && bool_decide (user (payload req) = botUserId (context req)).

Definition constructor (options : AssistantOptions.t U) : Assistant U :=
  {| threadContextStore := AssistantOptions.threadContextStore options;
     threadStartedHandler := fun req =>
       try_catch
         (if isAssitantThreadEvent (body req) then
            match AssistantOptions.threadStarted options with
            | Some handler => call ThreadStarted handler req
            | None =>
                in_world (say (context req)
                            {| text := ":wave: Hi, how can I help you today?" |}) ;;;
                in_world (setSuggestedPrompts (context req)
                            {| title := "New chat";
                               prompts := ["What does SLACK stand for?"] |})
            end
          else ret tt)
         (report "threadStartedHandler");
     threadContextChangedHandler := fun req =>
       try_catch
         (if isAssitantThreadEvent (body req) then
            match AssistantOptions.threadContextChanged options with
            | Some handler => call ThreadContextChanged handler req
            | None =>
                match assistant_thread (payload req) with
                | Some thread =>
                    in_world (saveThreadContextStore (context req)
                                (spread (thread_context thread)))
                | None => throw (cannot_read "context" "undefined")
                end
            end
          else ret tt)
         (report "threadContextChangedHandler");
     userMessageHandler := fun req =>
       try_catch
         (if user_message_guard req then
            match AssistantOptions.userMessage options with
            | Some handler => call UserMessage handler req
            | None => ret tt
            end
          else ret tt)
         (report "userMessageHandler");
     botMessageHandler := fun req =>
       try_catch
         (if bot_message_guard req then
            match AssistantOptions.botMessage options with
            | Some handler => call BotMessage handler req
            | None => ret tt
            end
          else ret tt)
         (report "botMessageHandler") |}.

Definition threadStarted (handler : Handler U) (this : Assistant U) : Assistant U :=
  {| threadContextStore := threadContextStore this;
     threadStartedHandler := fun req =>
       try_catch
         (if isAssitantThreadEvent (body req) then call ThreadStarted handler req
          else ret tt)
         (report "threadStartedHandler");
     threadContextChangedHandler := threadContextChangedHandler this;
     userMessageHandler := userMessageHandler this;
     botMessageHandler := botMessageHandler this |}.

Definition threadContextChanged (handler : Handler U) (this : Assistant U) : Assistant U :=
  {| threadContextStore := threadContextStore this;
     threadStartedHandler := threadStartedHandler this;
     threadContextChangedHandler := fun req =>
       try_catch
         (if isAssitantThreadEvent (body req) then call ThreadContextChanged handler req
          else ret tt)
         (report "threadContextChangedHandler");
     userMessageHandler := userMessageHandler this;
     botMessageHandler := botMessageHandler this |}.

Definition userMessage (handler : Handler U) (this : Assistant U) : Assistant U :=
  {| threadContextStore := threadContextStore this;
     threadStartedHandler := threadStartedHandler this;
     threadContextChangedHandler := threadContextChangedHandler this;
     userMessageHandler := fun req =>
       try_catch
         (if user_message_guard req then call UserMessage handler req else ret tt)
         (report "userMessageHandler");
     botMessageHandler := botMessageHandler this |}.

Definition botMessage (handler : Handler U) (this : Assistant U) : Assistant U :=
  {| threadContextStore := threadContextStore this;
     threadStartedHandler := threadStartedHandler this;
     threadContextChangedHandler := threadContextChangedHandler this;
     userMessageHandler := userMessageHandler this;
     botMessageHandler := fun req =>
       try_catch
         (if bot_message_guard req then call BotMessage handler req else ret tt)
         (report "botMessageHandler") |}.

(** *** Slots, uniformly *)

(** The listener a slot holds. *)
Definition listener (slot : Slot) (this : Assistant U) : EventLazyHandler U :=
  match slot with
  | ThreadStarted => threadStartedHandler this
  | ThreadContextChanged => threadContextChangedHandler this
  | UserMessage => userMessageHandler this
  | BotMessage => botMessageHandler this
  end.

(** The registration method of a slot. *)
Definition register (slot : Slot) (handler : Handler U) (this : Assistant U)
  : Assistant U :=
  match slot with
  | ThreadStarted => threadStarted handler this
  | ThreadContextChanged => threadContextChanged handler this
  | UserMessage => userMessage handler this
  | BotMessage => botMessage handler this
  end.

(** A sequence of registrations, applied first to last. *)
Definition register_all (registrations : list (Slot * Handler U)) (this : Assistant U)
  : Assistant U :=
  foldl (fun a r => register r.1 r.2 a) this registrations.

(** The events a slot's listener lets through. *)
Definition guard (slot : Slot) (req : Request U) : bool :=
  match slot with
  | ThreadStarted | ThreadContextChanged => isAssitantThreadEvent (body req)
  | UserMessage => user_message_guard req
  | BotMessage => bot_message_guard req
  end.

(** The name a slot's listener logs. *)
Definition listener_name (slot : Slot) : string :=
  match slot with
  | ThreadStarted => "threadStartedHandler"
  | ThreadContextChanged => "threadContextChangedHandler"
  | UserMessage => "userMessageHandler"
  | BotMessage => "botMessageHandler"
  end.

(** The listener a registration method installs for [handler]. *)
Definition installed (slot : Slot) (handler : Handler U) : EventLazyHandler U :=
  fun req =>
    try_catch (if guard slot req then call slot handler req else ret tt)
      (report (listener_name slot)).

(** Modelled from the spec: the routing of a message event by the
    coordinator (section 4.4); the dispatcher that hands an event to the
    listeners of an [Assistant] is not among the sources.  The coordinator
    checks BotMessage's author condition, then UserMessage's general
    condition, and routes the event to the listener of the first that
    matches, never to both. *)
Definition dispatch_message (this : Assistant U) (req : Request U)
  : Async (Runtime U) unit :=
  if bot_message_guard req then botMessageHandler this req
  else if user_message_guard req then userMessageHandler this req
  else ret tt.

(** *** The listener of a slot, by the handler in force *)

(** [options.threadStarted], [options.threadContextChanged], ... *)
Definition option_handler (slot : Slot) (options : AssistantOptions.t U)
  : option (Handler U) :=
  match slot with
  | ThreadStarted => AssistantOptions.threadStarted options
  | ThreadContextChanged => AssistantOptions.threadContextChanged options
  | UserMessage => AssistantOptions.userMessage options
  | BotMessage => AssistantOptions.botMessage options
  end.

(** The [else] branches of the constructor: what a listener does on its own
    when no handler was given. *)
Definition default_behaviour (slot : Slot) (req : Request U) : Async (Runtime U) unit :=
  match slot with
  | ThreadStarted =>
      in_world (say (context req)
                  {| text := ":wave: Hi, how can I help you today?" |}) ;;;
      in_world (setSuggestedPrompts (context req)
                  {| title := "New chat";
                     prompts := ["What does SLACK stand for?"] |})
  | ThreadContextChanged =>
      match assistant_thread (payload req) with
      | Some thread =>
          in_world (saveThreadContextStore (context req)
                      (spread (thread_context thread)))
      | None => throw (cannot_read "context" "undefined")
      end
  | UserMessage | BotMessage => ret tt
  end.

(** The listener of a slot whose handler is [handler], or that has none. *)
Definition slot_listener (slot : Slot) (handler : option (Handler U))
  : EventLazyHandler U :=
  fun req =>
    try_catch
      (if guard slot req then
         match handler with
         | Some h => call slot h req
         | None => default_behaviour slot req
         end
       else ret tt)
      (report (listener_name slot)).

(** The handler registered last for a slot, if any. *)
Definition registered_last (slot : Slot) (registrations : list (Slot * Handler U))
  : option (Handler U) :=
  foldl (fun found r => if decide (r.1 = slot) then Some r.2 else found)
    None registrations.

(** The handler in force for a slot after constructing with [options] and
    registering [registrations]: the one registered last, else the one of
    the options. *)
Definition handler_in_force (slot : Slot) (options : AssistantOptions.t U)
    (registrations : list (Slot * Handler U)) : option (Handler U) :=
  match registered_last slot registrations with
  | Some h => Some h
  | None => option_handler slot options
  end.

(** The line a listener logs for a value its body rejected with. *)
Definition failure_line (slot : Slot) (e : JsValue) : string :=
  "Failed to execute " +:+ listener_name slot +:+ " listener: "
  +:+ match e with
      | JsError _ _ (Some stack) => stack
      | _ => "undefined"
      end.

End Assistant.

Definition initial_runtime {U : Type} (u : U) : Runtime U :=
  {| world := u; errors := []; invoked := [] |}.

(** *** Example data: handlers over a world that is a list of notes *)

(** A handler that leaves a note with its name. *)
Definition noting (name : string) : Handler (list string) :=
  {| label := name; run := fun _ => modify (fun notes => notes ++ [name]) |}.

(** A handler that rejects with [e], like
    [new Promise((_, reject) => setTimeout(reject, 1000))], which rejects
    with [undefined]. *)
Definition rejecting (name : string) (e : JsValue) : Handler (list string) :=
  {| label := name; run := fun _ => throw e |}.

Definition example_utilities : Context (list string) :=
  {| botUserId := Some "BOT1";
     say := fun args => modify (fun notes => notes ++ ["say: " +:+ text args]);
     setSuggestedPrompts := fun args =>
       modify (fun notes => notes ++ ["prompts: " +:+ title args]);
     saveThreadContextStore := fun _ =>
       modify (fun notes => notes ++ ["context saved"]) |}.

(** [{type: "message", subtype: undefined, user: author}] *)
Definition message_from (author : string) : Request (list string) :=
  {| body := {[ "type" := JStr "event_callback" ]};
     payload := {| subtype := None; user := Some author; assistant_thread := None |};
     context := example_utilities |}.

(** A stand-in for the parameter [isAssitantThreadEvent]. *)
Definition has_event (body : SlackRequestBody) : bool :=
  bool_decide (is_Some (body !! "event")).

Definition both_registered : AssistantOptions.t (list string) :=
  {| AssistantOptions.threadContextStore := None;
     AssistantOptions.threadStarted := None;
     AssistantOptions.threadContextChanged := None;
     AssistantOptions.userMessage := Some (noting "onUserMessage");
     AssistantOptions.botMessage := Some (noting "onBotMessage") |}.

(** An event of an assistant thread, with or without [assistant_thread]
    in its payload. *)
Definition thread_event (thread : option AssistantThread) : Request (list string) :=
  {| body := {[ "event" := JObject [("type", JStr "assistant_thread_started")] ]};
     payload := {| subtype := None; user := None; assistant_thread := thread |};
     context := example_utilities |}.

(** [{type: "message", subtype: "message_changed", user: "U2"}] *)
Definition edited_message : Request (list string) :=
  {| body := {[ "type" := JStr "event_callback" ]};
     payload := {| subtype := Some "message_changed"; user := Some "U2";
                   assistant_thread := None |};
     context := example_utilities |}.

(** [new Error("boom")], with the stack an engine gives it. *)
Definition boom : JsValue :=
  JsError "Error" "boom" (Some "Error: boom at onUserMessage (app.ts:12:9)").

Definition with_rejecting_user_handler : AssistantOptions.t (list string) :=
  {| AssistantOptions.threadContextStore := None;
     AssistantOptions.threadStarted := None;
     AssistantOptions.threadContextChanged := None;
     AssistantOptions.userMessage := Some (rejecting "onUserMessage" JsUndefined);
     AssistantOptions.botMessage := None |}.

End Assistant.

(* ===================================================================== *)
(** * Part II: theorems                                                   *)
(* ===================================================================== *)

Section MessageEventsFacts.
Import MessageEvents.

(** C2. [isPostedMessageEvent] is true exactly when the subtype is
    undefined, "bot_message", "file_share" or "thread_broadcast"; it is
    true for [{type:"message"}] and for subtype "bot_message", and false
    for subtype "message_changed". *)
Theorem isPostedMessageEvent_spec :
  (forall event : Event,
      isPostedMessageEvent event = true <->
      subtype event = None \/ subtype event = Some "bot_message" \/
      subtype event = Some "file_share" \/
      subtype event = Some "thread_broadcast") /\
  isPostedMessageEvent {| type := "message"; subtype := None |} = true /\
  isPostedMessageEvent {| type := "message"; subtype := Some "bot_message" |} = true /\
  isPostedMessageEvent {| type := "message"; subtype := Some "message_changed" |} = false.
Proof.
  split; [|by vm_compute].
  intros event. unfold isPostedMessageEvent.
  rewrite !orb_true_iff, !bool_decide_eq_true. tauto.
Qed.

End MessageEventsFacts.

Section PayloadTypesFacts.
Import Js PayloadTypes.

Lemma has_field_true (rawBody : gmap string Json) (k : string) :
  has_field rawBody k = true <-> is_Some (rawBody !! k).
Proof. unfold has_field. apply bool_decide_eq_true. Qed.

Lemma has_field_false (rawBody : gmap string Json) (k : string) :
  has_field rawBody k = false <-> rawBody !! k = None.
Proof.
  unfold has_field. rewrite bool_decide_eq_false, <- eq_None_not_Some. tauto.
Qed.

(** Absence of [type] next to a [command] decides the variant, whatever else
    the body holds. *)
Lemma variant_of_slash_command (rawBody : gmap string Json) :
  is_Some (rawBody !! "command") -> rawBody !! "type" = None ->
  variant_of rawBody = inr SlashCommand.
Proof.
  intros Hc Ht. unfold variant_of.
  apply has_field_true in Hc. apply has_field_false in Ht.
  by rewrite Hc, Ht.
Qed.

(** C8. Every decoded body with a [command] field and no [type] field is
    classified as the slash-command variant, whatever the value of
    [command] and whatever else the body holds; and it is the absence of
    [type] that decides: a body is classified as a slash command only when
    it has a [command] field and no [type] field at all, so a body with a
    [type] field of any value never is.  The check of required fields that
    follows (step 3, over the lists of the data contracts) returns the
    slash-command payload when those fields are there. *)
Theorem slash_command_by_absent_type (rawBody : gmap string Json) :
  is_Some (rawBody !! "command") -> rawBody !! "type" = None ->
  variant_of rawBody = inr SlashCommand /\
  (forall other : gmap string Json,
     variant_of other = inr SlashCommand ->
     is_Some (other !! "command") /\ other !! "type" = None) /\
  (forall tag : Json, variant_of (<["type" := tag]> rawBody) <> inr SlashCommand) /\
  (forall required : Variant -> list string,
     Forall (fun k => is_Some (rawBody !! k)) (required SlashCommand) ->
     classify required rawBody = inr {| variant := SlashCommand; body := rawBody |}).
Proof.
  intros Hc Ht.
  pose proof (variant_of_slash_command rawBody Hc Ht) as Hv.
  assert (forall other : gmap string Json,
            variant_of other = inr SlashCommand ->
            is_Some (other !! "command") /\ other !! "type" = None) as Honly.
  { intros other. unfold variant_of.
    destruct (has_field other "command" && negb (has_field other "type")) eqn:Hsel.
    - intros _. apply andb_true_iff in Hsel as [Hcmd Htype].
      apply negb_true_iff in Htype.
      by split; [apply has_field_true | apply has_field_false].
    - destruct (other !! "type") as [[| | |tag| |]|]; try done.
      by destruct (of_value tag). }
  split; [done|]. split; [done|]. split.
  - intros tag Hslash. apply Honly in Hslash as [_ Hnone].
    by rewrite lookup_insert_eq in Hnone.
  - intros required Hall. unfold classify. rewrite Hv.
    assert (forallb (has_field rawBody) (required SlashCommand) = true) as ->; [|done].
    apply forallb_forall. intros k Hk. apply has_field_true.
    rewrite Forall_forall in Hall. apply Hall. by apply list_elem_of_In.
Qed.

Lemma slash_command_by_absent_type_witness :
  is_Some (command_only !! "command") /\ command_only !! "type" = None /\
  variant_of command_only = inr SlashCommand.
Proof.
  assert (is_Some (command_only !! "command")) as Hc by (by vm_compute; eexists).
  assert (command_only !! "type" = None) as Ht by (by vm_compute).
  split; [done | split; [done|]].
  exact (proj1 (slash_command_by_absent_type command_only Hc Ht)).
Defined.

End PayloadTypesFacts.

Section ThreadContextStoreFacts.
Import Js Async ThreadContextStore.
Context {C : Type} `{SlackAPIClient C}.
Implicit Types (this : DefaultAssistantThreadContextStore) (key : AssistantThreadKey).
Implicit Types (env : Env C) (m message : Message) (msgs : list Message).

Lemma is_assistant_reply_spec this m :
  is_assistant_reply this m = true <-> bot_reply this m.
Proof.
  unfold is_assistant_reply, bot_reply.
  rewrite andb_true_iff, negb_true_iff, bool_decide_eq_false, bool_decide_eq_true.
  rewrite <- eq_None_not_Some. tauto.
Qed.

(** The loop returns the first message that passes the test. *)
Lemma first_assistant_reply_find this key msgs :
  first_assistant_reply this key msgs
  = to_first_reply key <$> List.find (is_assistant_reply this) msgs.
Proof.
  induction msgs as [|m msgs IH]; [done|]. simpl.
  by destruct (is_assistant_reply this m).
Qed.


Lemma find_none_all {A : Type} (p : A -> bool) (l : list A) :
  List.find p l = None <-> forall x, x ∈ l -> p x = false.
Proof.
  induction l as [|a l IH]; simpl.
  - split; [|done]. intros _ x Hx. by apply elem_of_nil in Hx.
  - destruct (p a) eqn:Hpa.
    + split; [done|]. intros Hall. specialize (Hall a (list_elem_of_here _ _)). congruence.
    + rewrite IH. split.
      * intros Hall x [->|Hx]%elem_of_cons; auto.
      * intros Hall x Hx. apply Hall. by apply list_elem_of_further.
Qed.

(** One run of the lookup: a single [conversations.replies] call; a
    response is scanned, a rejection is logged and gives [undefined]. *)
Lemma findFirstAssistantReply_run this key env :
  findFirstAssistantReply this key env =
  let '(c1, r) := conversations_replies (replies_request key) (client env) in
  let called := calls env ++ [RepliesCall (replies_request key)] in
  match r with
  | Resolved response =>
      ({| client := c1; calls := called; console := console env |},
       Resolved (first_assistant_reply this key (default [] (messages response))))
  | Rejected e =>
      ({| client := c1; calls := called;
          console := console env
            ++ ["Failed to fetch conversations.replies API result: " +:+ to_string e] |},
       Resolved None)
  end.
Proof.
  unfold findFirstAssistantReply, try_catch, bind, api_replies.
  destruct (conversations_replies (replies_request key) (client env)) as [c1 [response|e]].
  - by destruct (messages response).
  - done.
Qed.

Lemma findFirstAssistantReply_anchor this key env :
  exists env',
    findFirstAssistantReply this key env
    = (env', Resolved (to_first_reply key <$> anchor this key (client env))) /\
    calls env' = calls env ++ [RepliesCall (replies_request key)].
Proof.
  rewrite findFirstAssistantReply_run. unfold anchor, lookup_window.
  destruct (conversations_replies (replies_request key) (client env)) as [c1 [response|e]];
    simpl.
  - eexists. split; [by rewrite first_assistant_reply_find | reflexivity].
  - eexists. split; reflexivity.
Qed.


(** C4. When the lookup window of a thread holds no reply of the bot without
    a subtype, [find] resolves with [undefined], and [save] resolves
    without calling [chat.update]: the only API call either makes is the
    lookup. *)
Theorem no_anchor_find_absent_save_noop this key newContext env :
  (forall m, m ∈ lookup_window key (client env) -> ~ bot_reply this m) ->
  exists env',
    find this key env = (env', Resolved None) /\
    save this key newContext env = (env', Resolved tt) /\
    calls env' = calls env ++ [RepliesCall (replies_request key)].
Proof.
  intros Hnone.
  assert (anchor this key (client env) = None) as Hanchor.
  { unfold anchor. apply find_none_all. intros m Hm.
    destruct (is_assistant_reply this m) eqn:Hp; [|done].
    apply is_assistant_reply_spec in Hp. by destruct (Hnone m Hm). }
  destruct (findFirstAssistantReply_anchor this key env) as (env' & Hrun & Hcalls).
  rewrite Hanchor in Hrun. exists env'.
  unfold find, save, bind. by rewrite Hrun.
Qed.

(** C9. When the lookup finds an anchor message, [save] calls [chat.update]
    once, on the client as the lookup left it, and ends as that call ends:
    the request carries the channel of the thread, the timestamp, text and
    blocks of the anchor, and as metadata the event type
    "assistant_thread_context" with the new context as payload.  Applied
    to the anchor, such an update changes the metadata and nothing else,
    and it leaves messages with another timestamp as they are; on a client
    that shows updates, the thread read again after the save is the thread
    as it was with this update applied. *)
Theorem save_rewrites_only_metadata this key newContext env message :
  anchor this key (client env) = Some message ->
  let u := {| update_channel_id := channel_id key;
              update_ts := msg_ts message;
              update_text := msg_text message;
              update_blocks := msg_blocks message;
              update_channel := channel_id key;
              update_metadata :=
                {| event_type := "assistant_thread_context";
                   event_payload := newContext |} |} in
  let answer := chat_update u (conversations_replies (replies_request key) (client env)).1 in
  save this key newContext env
  = ({| client := answer.1;
        calls := calls env ++ [RepliesCall (replies_request key); UpdateCall u];
        console := console env |}, answer.2) /\
  (is_Some (msg_ts message) ->
   edit u message
   = {| msg_subtype := msg_subtype message; msg_user := msg_user message;
        msg_ts := msg_ts message; msg_text := msg_text message;
        msg_blocks := msg_blocks message;
        msg_metadata := Some (update_metadata u) |}) /\
  (forall m, msg_ts m <> msg_ts message -> edit u m = m) /\
  (UpdatesAreVisible C ->
   forall c3 response,
     answer.2 = Resolved tt ->
     conversations_replies (replies_request key) answer.1 = (c3, Resolved response) ->
     messages response = Some (edit u <$> lookup_window key (client env))).
Proof.
  intros Hanchor u answer.
  assert (update_request (to_first_reply key message) newContext = u) as Hrequest
    by (by destruct newContext).
  unfold anchor, lookup_window in Hanchor.
  destruct (conversations_replies (replies_request key) (client env))
    as [c1 [[[msgs|]]|e]] eqn:Hfirst; simpl in *; try done.
  split; [|split; [|split]].
  - unfold save, bind. rewrite findFirstAssistantReply_run, Hfirst. simpl.
    rewrite first_assistant_reply_find, Hanchor. simpl.
    unfold api_update. simpl. rewrite Hrequest. fold answer.
    destruct answer as [c2 completion]. simpl. by rewrite <- app_assoc.
  - intros Hts. unfold edit. rewrite bool_decide_true by done. simpl.
    by destruct (msg_text message), (msg_blocks message).
  - intros m Hne. unfold edit. rewrite bool_decide_false; [done|].
    simpl. by intros [_ ?].
  - intros Hvisible c3 response Hresolved Hread.
    unfold lookup_window. rewrite Hfirst. simpl.
    apply (updates_are_visible (replies_request key) u (client env) c1 answer.1 c3 msgs
             response Hfirst); [| reflexivity | exact Hread].
    rewrite <- Hresolved. apply surjective_pairing.
Qed.

(** What [save] does after the lookup. *)
Lemma save_run this key newContext env :
  save this key newContext env =
  let '(env1, r) := findFirstAssistantReply this key env in
  match r with
  | Resolved (Some reply) => api_update (update_request reply newContext) env1
  | Resolved None => (env1, Resolved tt)
  | Rejected e => (env1, Rejected e)
  end.
Proof.
  unfold save, bind.
  destruct (findFirstAssistantReply this key env) as [env1 [[reply|]|e]]; done.
Qed.

(** C5, amended.  [find] never rejects.  A failure of the
    [conversations.replies] call of the lookup is caught inside the store
    and logged; [find] then resolves with [undefined] and [save] resolves
    without an update call.  A failure of the [chat.update] call of [save]
    is not caught by the store: [save] rejects with an error exactly when
    the lookup found an anchor and [chat.update] rejected with that
    error. *)
Theorem store_swallows_lookup_failures this key newContext env :
  (exists env' result, find this key env = (env', Resolved result)) /\
  (forall c1 e,
     conversations_replies (replies_request key) (client env) = (c1, Rejected e) ->
     let env' :=
       {| client := c1;
          calls := calls env ++ [RepliesCall (replies_request key)];
          console := console env
            ++ ["Failed to fetch conversations.replies API result: " +:+ to_string e] |} in
     find this key env = (env', Resolved None) /\
     save this key newContext env = (env', Resolved tt)) /\
  (forall e,
     (exists env', save this key newContext env = (env', Rejected e)) <->
     (exists env1 message c2,
        findFirstAssistantReply this key env
        = (env1, Resolved (Some (to_first_reply key message))) /\
        anchor this key (client env) = Some message /\
        chat_update (update_request (to_first_reply key message) newContext) (client env1)
        = (c2, Rejected e))).
Proof.
  split; [|split].
  - destruct (findFirstAssistantReply_anchor this key env) as (env1 & Hrun & _).
    unfold find, bind. rewrite Hrun.
    destruct (anchor this key (client env)); simpl; eauto.
  - intros c1 e Hcall. simpl.
    unfold find, save, bind. rewrite findFirstAssistantReply_run, Hcall. done.
  - intros e.
    destruct (findFirstAssistantReply_anchor this key env) as (env1 & Hrun & _).
    rewrite save_run, Hrun. split.
    + intros [env' Hsave].
      destruct (anchor this key (client env)) as [message|]; simpl in *; [|done].
      unfold api_update in Hsave.
      destruct (chat_update _ (client env1)) as [c2 r] eqn:Hupdate.
      injection Hsave as _ ->. by exists env1, message, c2.
    + intros (env1' & message & c2 & Hrun' & Hanchor & Hupdate).
      rewrite Hanchor in *. simpl in *.
      assert (env1' = env1) as -> by congruence.
      unfold api_update. rewrite Hupdate. eauto.
Qed.

(** [edit] keeps what the lookup tests, so the first reply of the bot stays
    where it was. *)
Lemma find_edit this u msgs :
  List.find (is_assistant_reply this) (edit u <$> msgs)
  = edit u <$> List.find (is_assistant_reply this) msgs.
Proof.
  assert (forall m, is_assistant_reply this (edit u m) = is_assistant_reply this m) as Hkeep.
  { intros m. unfold edit. by case_bool_decide. }
  induction msgs as [|m msgs IH]; [done|]. simpl.
  rewrite Hkeep. by destruct (is_assistant_reply this m).
Qed.

(** C3. Given a reachable anchor message - the lookup window of the thread
    holds a reply of the bot without a subtype, and the update call of
    [save] and the lookup of [find] go through - and a client that shows
    updates to later readers, [save(key, context)] followed by [find(key)]
    resolves with exactly the saved context. *)
Theorem save_then_find `{!UpdatesAreVisible C} this key newContext env message c2 c3 response :
  anchor this key (client env) = Some message ->
  is_Some (msg_ts message) ->
  chat_update (update_request (to_first_reply key message) newContext)
    (conversations_replies (replies_request key) (client env)).1
  = (c2, Resolved tt) ->
  conversations_replies (replies_request key) c2 = (c3, Resolved response) ->
  exists env1 env2,
    save this key newContext env = (env1, Resolved tt) /\
    find this key env1 = (env2, Resolved (Some newContext)).
Proof.
  intros Hanchor Hts Hupdate Hread.
  set (u := update_request (to_first_reply key message) newContext) in *.
  unfold anchor, lookup_window in Hanchor.
  destruct (conversations_replies (replies_request key) (client env))
    as [c1 [[[msgs|]]|e]] eqn:Hfirst; simpl in *; try done.
  pose proof (updates_are_visible _ u _ _ _ _ _ _ Hfirst Hupdate eq_refl Hread) as Hseen.
  eexists _, _. split.
  - rewrite save_run, findFirstAssistantReply_run, Hfirst. simpl.
    rewrite first_assistant_reply_find, Hanchor. simpl.
    unfold api_update. simpl. fold u. rewrite Hupdate. reflexivity.
  - unfold find, bind. rewrite findFirstAssistantReply_run. simpl.
    rewrite Hread, Hseen. simpl.
    rewrite first_assistant_reply_find, find_edit, Hanchor. simpl.
    unfold edit. rewrite bool_decide_true by done. simpl.
    by destruct newContext.
Qed.

End ThreadContextStoreFacts.

Section WorkspaceFacts.
Import Js Async ThreadContextStore.

Lemma next_outage_history (ws : Workspace) :
  history (next_outage ws).2 = history ws.
Proof. unfold next_outage. by destruct (outages ws). Qed.

Lemma in_window_edit_posted q u p :
  in_window q (edit_posted u p) = in_window q p.
Proof.
  unfold edit_posted. destruct (is_target u p); [|done].
  unfold in_window, edit. simpl.
  by destruct (bool_decide (is_Some (update_ts u) /\ _)).
Qed.

Lemma posted_message_edit q u p :
  update_channel u = channel q -> in_window q p = true ->
  posted_message (edit_posted u p) = edit u (posted_message p).
Proof.
  intros Hchannel Hin. unfold in_window in Hin.
  apply andb_true_iff in Hin as [[Hc _]%andb_true_iff _].
  apply bool_decide_eq_true in Hc.
  unfold edit_posted, is_target, edit.
  rewrite (bool_decide_true (posted_channel p = update_channel u)) by congruence.
  simpl. by destruct (bool_decide (is_Some (update_ts u) /\ _)).
Qed.

Lemma filter_fmap_keep {A : Type} (f : A -> A) (p : A -> bool) (l : list A) :
  (forall x, p (f x) = p x) ->
  List.filter p (f <$> l) = f <$> List.filter p l.
Proof.
  intros Hkeep. induction l as [|a l IH]; [done|].
  rewrite fmap_cons. simpl. rewrite Hkeep.
  destruct (p a); rewrite ?fmap_cons; by rewrite IH.
Qed.

Lemma fmap_filter_ext {A B : Type} (f g : A -> B) (p : A -> bool) (l : list A) :
  (forall x, p x = true -> f x = g x) ->
  f <$> List.filter p l = g <$> List.filter p l.
Proof.
  intros Hext. induction l as [|a l IH]; [done|]. simpl.
  destruct (p a) eqn:Hpa; [|done]. by rewrite !fmap_cons, IH, Hext.
Qed.

(** The in-memory workspace honours the limit of a request: the lookup
    window holds at most 4 messages. *)
Lemma workspace_window_bounded key (ws : Workspace) :
  length (lookup_window key ws) <= 4.
Proof.
  unfold lookup_window. simpl. unfold workspace_replies.
  destruct (next_outage ws) as [[e|] ws']; simpl; [lia|].
  rewrite length_take. lia.
Qed.

(** The in-memory workspace shows updates to later readers. *)
#[global] Instance Workspace_updates_visible : UpdatesAreVisible Workspace.
Proof.
  intros q u c0 c1 c2 c3 msgs r Hread Hupdate Hchannel Hread'.
  simpl in *. unfold workspace_replies, workspace_update in *.
  pose proof (next_outage_history c0) as Hh0.
  pose proof (next_outage_history c1) as Hh1.
  pose proof (next_outage_history c2) as Hh2.
  destruct (next_outage c0) as [[e0|] w0]; [done|].
  destruct (next_outage c1) as [[e1|] w1]; [done|].
  destruct (next_outage c2) as [[e2|] w2]; [done|].
  simpl in *.
  destruct (existsb (is_target u) (history w1)); [|done].
  injection Hread as -> Hmsgs. injection Hupdate as <-. injection Hread' as _ <-.
  simpl in *. rewrite Hh2, Hh1, <- Hmsgs. f_equal.
  rewrite filter_fmap_keep by (intros p; apply in_window_edit_posted).
  rewrite <- list_fmap_compose.
  rewrite (fmap_filter_ext _ (edit u ∘ posted_message) (in_window q))
    by (intros p Hp; by apply (posted_message_edit q)).
  by rewrite list_fmap_compose, fmap_take.
Qed.

End WorkspaceFacts.

Section ThreadContextStoreExamples.
Import Js Async ThreadContextStore.

Lemma example_anchor_found :
  anchor example_store example_key example_workspace = Some example_anchor.
Proof. by vm_compute. Qed.

Lemma save_then_find_witness :
  (anchor example_store example_key (client (initial_env example_workspace))
   = Some example_anchor /\
   is_Some (msg_ts example_anchor)) /\
  exists env1 env2,
    save example_store example_key example_context (initial_env example_workspace)
    = (env1, Resolved tt) /\
    find example_store example_key env1 = (env2, Resolved (Some example_context)).
Proof.
  split; [split; [by vm_compute | by eexists]|].
  eapply (save_then_find example_store example_key example_context
            (initial_env example_workspace) example_anchor).
  - by vm_compute.
  - by eexists.
  - by vm_compute.
  - by vm_compute.
Defined.

Lemma no_anchor_witness :
  (forall m, m ∈ lookup_window example_key (client (initial_env quiet_workspace)) ->
             ~ bot_reply example_store m) /\
  exists env',
    find example_store example_key (initial_env quiet_workspace) = (env', Resolved None) /\
    save example_store example_key example_context (initial_env quiet_workspace)
    = (env', Resolved tt) /\
    calls env' = [RepliesCall (replies_request example_key)].
Proof.
  assert (forall m, m ∈ lookup_window example_key (client (initial_env quiet_workspace)) ->
                    ~ bot_reply example_store m) as Hquiet.
  { intros m Hm Hbot%is_assistant_reply_spec.
    assert (anchor example_store example_key quiet_workspace = None) as Hnone
      by (by vm_compute).
    apply find_none_all with (x := m) in Hnone; [congruence | done]. }
  split; [done|].
  exact (no_anchor_find_absent_save_noop example_store example_key example_context
           (initial_env quiet_workspace) Hquiet).
Defined.

Lemma save_rewrites_only_metadata_witness :
  anchor example_store example_key (client (initial_env example_workspace))
  = Some example_anchor /\
  let done := save example_store example_key example_context
                (initial_env example_workspace) in
  done.2 = Resolved tt /\
  calls done.1
  = [RepliesCall (replies_request example_key);
     UpdateCall {| update_channel_id := "D024BE91L";
                   update_ts := Some "1726133701.028589";
                   update_text := Some "Searchable Log of All Communication and Knowledge";
                   update_blocks := None;
                   update_channel := "D024BE91L";
                   update_metadata :=
                     {| event_type := "assistant_thread_context";
                        event_payload := example_context |} |}] /\
  msg_metadata <$> (posted_message <$> history (client done.1))
  = [None; None;
     Some {| event_type := "assistant_thread_context"; event_payload := example_context |}].
Proof.
  split; [by vm_compute|].
  destruct (save_rewrites_only_metadata example_store example_key example_context
              (initial_env example_workspace) example_anchor) as [Hsave _];
    [by vm_compute|].
  rewrite Hsave. by vm_compute.
Defined.


(** C5, as stated, fails: when the lookup finds the anchor and the
    [chat.update] call is rate limited, [save] rejects with the error of
    the API call. *)
Lemma save_propagates_update_failure :
  exists env',
    save example_store example_key example_context
      (initial_env workspace_failing_update)
    = (env', Rejected rate_limited) /\
    console env' = [].
Proof. eexists. split; by vm_compute. Qed.

End ThreadContextStoreExamples.

Section AssistantFacts.
Import Js Async ThreadContextStore Assistant.
Context {U : Type}.
Variable isAssitantThreadEvent : SlackRequestBody -> bool.
Implicit Types (slot : Slot) (handler : Handler U) (req : Request U) (rt : Runtime U).
Implicit Types (this : Assistant U) (options : AssistantOptions.t U).

#[local] Abbreviation guard := (guard isAssitantThreadEvent).
#[local] Abbreviation installed := (installed isAssitantThreadEvent).
#[local] Abbreviation register := (register isAssitantThreadEvent).
#[local] Abbreviation register_all := (register_all isAssitantThreadEvent).
#[local] Abbreviation constructor := (constructor isAssitantThreadEvent).

Lemma listener_register_same slot handler this :
  listener slot (register slot handler this) = installed slot handler.
Proof. by destruct slot. Qed.

Lemma listener_register_other slot slot' handler this :
  slot' <> slot ->
  listener slot (register slot' handler this) = listener slot this.
Proof. by destruct slot, slot'. Qed.

Lemma listener_register_all_other slot (registrations : list (Slot * Handler U)) this :
  Forall (fun r => r.1 <> slot) registrations ->
  listener slot (register_all registrations this) = listener slot this.
Proof.
  unfold Assistant.register_all.
  revert this. induction registrations as [|r rs IH]; intros this Hall; [done|].
  apply Forall_cons in Hall as [Hr Hrs]. simpl.
  rewrite IH by done. by apply listener_register_other.
Qed.

Lemma register_all_app (earlier later : list (Slot * Handler U)) slot handler this :
  register_all (earlier ++ (slot, handler) :: later) this
  = register_all later (register slot handler (register_all earlier this)).
Proof. unfold Assistant.register_all. by rewrite foldl_app. Qed.

(** A listener records the call and nothing else in the ghost record. *)
Lemma installed_invoked slot handler req rt :
  invoked (installed slot handler req rt).1
  = invoked rt ++ (if guard slot req then [(slot, label handler)] else []).
Proof.
  unfold Assistant.installed, try_catch.
  destruct (guard slot req); simpl; [|by rewrite app_nil_r].
  unfold call, bind, modify, in_world. simpl.
  destruct (run handler req (world rt)) as [u [[]|e]]; simpl; [done|].
  unfold report. by destruct (get_stack e).
Qed.

(** The read of [.stack] in a catch block throws exactly on [undefined]
    and [null]. *)
Lemma get_stack_throws (e : JsValue) :
  (exists type_error, get_stack e = inl type_error) <-> e = JsUndefined \/ e = JsNull.
Proof.
  destruct e; simpl; split; try (intros [? ?]; done); try (intros [?|?]; done); eauto.
Qed.

(** Every listener of the sources is a body under the same catch block.  It
    resolves when the body does; when the body rejects it logs the name of
    the listener and the stack, unless the rejection is [undefined] or
    [null], on which the catch block itself throws. *)
Lemma catch_block_run (name : string) (c : Async (Runtime U) unit) rt :
  try_catch c (report name) rt =
  let '(rt1, r) := c rt in
  match r with
  | Resolved a => (rt1, Resolved a)
  | Rejected e =>
      match get_stack e with
      | inl type_error => (rt1, Rejected type_error)
      | inr stack =>
          ({| world := world rt1;
              errors := errors rt1
                ++ ["Failed to execute " +:+ name +:+ " listener: "
                    +:+ template_of_option stack];
              invoked := invoked rt1 |}, Resolved tt)
      end
  end.
Proof.
  unfold try_catch. destruct (c rt) as [rt1 [a|e]]; [done|].
  unfold report. by destruct (get_stack e).
Qed.

(** What a listener does with the completion of the handler. *)
Lemma installed_run slot handler req rt :
  guard slot req = true ->
  installed slot handler req rt =
  let '(u, r) := run handler req (world rt) in
  let called := invoked rt ++ [(slot, label handler)] in
  match r with
  | Resolved _ => ({| world := u; errors := errors rt; invoked := called |}, Resolved tt)
  | Rejected e =>
      match get_stack e with
      | inl type_error =>
          ({| world := u; errors := errors rt; invoked := called |}, Rejected type_error)
      | inr stack =>
          ({| world := u;
              errors := errors rt
                ++ ["Failed to execute " +:+ listener_name slot +:+ " listener: "
                    +:+ template_of_option stack];
              invoked := called |}, Resolved tt)
      end
  end.
Proof.
  intros Hguard. unfold Assistant.installed, try_catch. rewrite Hguard.
  unfold call, bind, modify, in_world. simpl.
  destruct (run handler req (world rt)) as [u [[]|e]]; simpl; [done|].
  unfold report. by destruct (get_stack e).
Qed.

(** The line of the catch block, by the value caught. *)
Lemma failure_line_stack slot (e : JsValue) (stack : option string) :
  get_stack e = inr stack ->
  "Failed to execute " +:+ listener_name slot +:+ " listener: " +:+ template_of_option stack
  = failure_line slot e.
Proof. destruct e as [| | |? ? [?|]]; simpl; by intros [= <-]. Qed.

(** The world an installed listener leaves is the world its handler
    leaves. *)
Lemma installed_world slot handler req rt :
  guard slot req = true ->
  world (installed slot handler req rt).1 = (run handler req (world rt)).1.
Proof.
  intros Hguard. rewrite installed_run by done.
  destruct (run handler req (world rt)) as [u [[]|e]]; [done|].
  by destruct (get_stack e).
Qed.

(** C7. A slot holds one listener, and registering replaces it: after any
    sequence of registrations, the listener of a slot is the one installed
    for the handler registered last for that slot.  An event dispatched to
    the slot that passes its guard runs that handler, on the world as it
    is, and no handler registered for the slot earlier (nor the one given
    to the constructor): the world left is the one this handler leaves,
    the record of calls grows by this handler alone, and the completion
    and the log are those of the catch block around this handler's own
    completion. *)
Theorem last_registration_wins options
    (earlier later : list (Slot * Handler U)) slot handler req rt :
  Forall (fun r => r.1 <> slot) later ->
  let this := register_all (earlier ++ (slot, handler) :: later) (constructor options) in
  listener slot this = installed slot handler /\
  invoked (listener slot this req rt).1
  = invoked rt ++ (if guard slot req then [(slot, label handler)] else []) /\
  (guard slot req = true ->
   listener slot this req rt =
   let '(u, r) := run handler req (world rt) in
   let called := invoked rt ++ [(slot, label handler)] in
   match r with
   | Resolved _ =>
       ({| world := u; errors := errors rt; invoked := called |}, Resolved tt)
   | Rejected e =>
       match get_stack e with
       | inl type_error =>
           ({| world := u; errors := errors rt; invoked := called |},
            Rejected type_error)
       | inr _ =>
           ({| world := u; errors := errors rt ++ [failure_line slot e];
               invoked := called |}, Resolved tt)
       end
   end).
Proof.
  intros Hlater this.
  assert (listener slot this = installed slot handler) as Hlistener.
  { unfold this. rewrite register_all_app.
    rewrite listener_register_all_other by done.
    apply listener_register_same. }
  split; [done|]. rewrite Hlistener. split; [apply installed_invoked|].
  intros Hguard. rewrite installed_run by done.
  destruct (run handler req (world rt)) as [u [[]|e]]; [done|].
  destruct (get_stack e) as [type_error|stack] eqn:Hstack; [done|].
  by rewrite (failure_line_stack slot e stack).
Qed.

(** With handlers given to the constructor, the two message listeners are
    the installed ones. *)
Lemma constructor_userMessage options handler :
  AssistantOptions.userMessage options = Some handler ->
  userMessageHandler (constructor options) = installed UserMessage handler.
Proof. intros Hopt. unfold Assistant.constructor, Assistant.installed. simpl. by rewrite Hopt. Qed.

Lemma constructor_botMessage options handler :
  AssistantOptions.botMessage options = Some handler ->
  botMessageHandler (constructor options) = installed BotMessage handler.
Proof. intros Hopt. unfold Assistant.constructor, Assistant.installed. simpl. by rewrite Hopt. Qed.

(** C1. A message event without subtype whose user is the bot user id is
    routed to the BotMessage slot and not to the UserMessage slot: the
    BotMessage handler is run, on the world as it is, and it alone is
    called.  The same event with another user is routed to the UserMessage
    slot and not to the BotMessage slot.  In both cases one handler is
    called, never both. *)
Theorem message_routed_to_one_slot options onUser onBot req rt :
  AssistantOptions.userMessage options = Some onUser ->
  AssistantOptions.botMessage options = Some onBot ->
  subtype (payload req) = None ->
  let this := constructor options in
  let after := (dispatch_message this req rt).1 in
  (user (payload req) = botUserId (context req) ->
   dispatch_message this req rt = botMessageHandler this req rt /\
   world after = (run onBot req (world rt)).1 /\
   invoked after = invoked rt ++ [(BotMessage, label onBot)]) /\
  (user (payload req) <> botUserId (context req) ->
   dispatch_message this req rt = userMessageHandler this req rt /\
   world after = (run onUser req (world rt)).1 /\
   invoked after = invoked rt ++ [(UserMessage, label onUser)]).
Proof.
  intros Hu Hb Hsub this after. unfold after, this, dispatch_message.
  rewrite (constructor_userMessage _ _ Hu), (constructor_botMessage _ _ Hb).
  assert (guard UserMessage req = true) as Hguard_user.
  { simpl. unfold user_message_guard. by rewrite Hsub. }
  split.
  - intros Hauthor.
    assert (guard BotMessage req = true) as Hguard_bot.
    { simpl. unfold bot_message_guard. rewrite Hsub, Hauthor.
      by rewrite !bool_decide_true. }
    simpl in Hguard_bot. rewrite Hguard_bot. split; [done|].
    split; [by apply installed_world|].
    pose proof (installed_invoked BotMessage onBot req rt) as Hcalled.
    simpl in Hcalled. by rewrite Hguard_bot in Hcalled.
  - intros Hauthor.
    assert (bot_message_guard req = false) as Hguard_bot.
    { unfold bot_message_guard. by rewrite Hsub, (bool_decide_false _ Hauthor). }
    simpl in Hguard_user. rewrite Hguard_bot, Hguard_user. split; [done|].
    split; [by apply installed_world|].
    pose proof (installed_invoked UserMessage onUser req rt) as Hcalled.
    simpl in Hcalled. by rewrite Hguard_user in Hcalled.
Qed.

End AssistantFacts.

Section AssistantExamples.
Import Js Async ThreadContextStore Assistant.

Lemma message_routed_to_one_slot_witness :
  subtype (payload (message_from "BOT1")) = None /\
  (let after := (dispatch_message (constructor has_event both_registered)
                   (message_from "BOT1") (initial_runtime [])).1 in
   world after = ["onBotMessage"] /\
   invoked after = [(BotMessage, "onBotMessage")]) /\
  (let after := (dispatch_message (constructor has_event both_registered)
                   (message_from "U2") (initial_runtime [])).1 in
   world after = ["onUserMessage"] /\
   invoked after = [(UserMessage, "onUserMessage")]).
Proof.
  split; [done|]. split.
  - exact (proj2 (proj1 (message_routed_to_one_slot has_event both_registered
             (noting "onUserMessage") (noting "onBotMessage")
             (message_from "BOT1") (initial_runtime []) eq_refl eq_refl eq_refl)
             eq_refl)).
  - exact (proj2 (proj2 (message_routed_to_one_slot has_event both_registered
             (noting "onUserMessage") (noting "onBotMessage")
             (message_from "U2") (initial_runtime []) eq_refl eq_refl eq_refl)
             ltac:(done))).
Defined.

(** C6 at a failing input: a user-message handler whose promise rejects with
    [undefined].  The listener calls it, enters its catch block, and the
    read of [.stack] there throws: nothing is logged and the listener
    rejects with a [TypeError]. *)
Theorem listener_rejects_when_handler_rejects_with_undefined :
  userMessageHandler (constructor has_event with_rejecting_user_handler)
    (message_from "U2") (initial_runtime [])
  = ({| world := []; errors := [];
        invoked := [(UserMessage, "onUserMessage")] |},
     Rejected (JsError "TypeError"
                 "Cannot read properties of undefined (reading 'stack')"
                 (Some "TypeError: Cannot read properties of undefined (reading 'stack')"))).
Proof. by vm_compute. Qed.

Lemma last_registration_wins_witness :
  let registrations :=
    [(UserMessage, noting "first"); (BotMessage, noting "onBotMessage");
     (UserMessage, noting "second"); (ThreadStarted, noting "onThreadStarted")] in
  let this := register_all has_event registrations (constructor has_event both_registered) in
  Forall (fun r : Slot * Handler (list string) => r.1 <> UserMessage)
    [(ThreadStarted, noting "onThreadStarted")] /\
  guard has_event UserMessage (message_from "U2") = true /\
  listener UserMessage this (message_from "U2") (initial_runtime [])
  = ({| world := ["second"]; errors := [];
        invoked := [(UserMessage, "second")] |}, Resolved tt).
Proof.
  assert (Forall (fun r : Slot * Handler (list string) => r.1 <> UserMessage)
            [(ThreadStarted, noting "onThreadStarted")]) as Hlater
    by (by repeat constructor).
  split; [done|]. split; [done|].
  exact (proj2 (proj2 (last_registration_wins has_event both_registered
           [(UserMessage, noting "first"); (BotMessage, noting "onBotMessage")]
           [(ThreadStarted, noting "onThreadStarted")]
           UserMessage (noting "second") (message_from "U2") (initial_runtime [])
           Hlater)) eq_refl).
Defined.

End AssistantExamples.

(* ===================================================================== *)
(** * Part III: further properties of the code                            *)
(* ===================================================================== *)

Section AssistantBehaviour.
Import Js Async ThreadContextStore Assistant.
Context {U : Type}.
Variable isAssitantThreadEvent : SlackRequestBody -> bool.
Implicit Types (slot : Slot) (handler : Handler U) (req : Request U) (rt : Runtime U).
Implicit Types (this : Assistant U) (options : AssistantOptions.t U).
Implicit Types (registrations : list (Slot * Handler U)).

#[local] Abbreviation guard := (guard isAssitantThreadEvent).
#[local] Abbreviation slot_listener := (slot_listener isAssitantThreadEvent).
#[local] Abbreviation register := (register isAssitantThreadEvent).
#[local] Abbreviation register_all := (register_all isAssitantThreadEvent).
#[local] Abbreviation constructor := (constructor isAssitantThreadEvent).

Lemma listener_constructor slot options :
  listener slot (constructor options) = slot_listener slot (option_handler slot options).
Proof. by destruct slot. Qed.

Lemma listener_registered slot handler this :
  listener slot (register slot handler this) = slot_listener slot (Some handler).
Proof. by destruct slot. Qed.

Lemma store_registered slot handler this :
  threadContextStore (register slot handler this) = threadContextStore this.
Proof. by destruct slot. Qed.

Lemma register_all_snoc registrations slot handler this :
  register_all (registrations ++ [(slot, handler)]) this
  = register slot handler (register_all registrations this).
Proof. unfold Assistant.register_all. by rewrite foldl_app. Qed.

Lemma registered_last_snoc slot slot' handler registrations :
  registered_last slot (registrations ++ [(slot', handler)])
  = if decide (slot' = slot) then Some handler else registered_last slot registrations.
Proof. unfold registered_last. by rewrite foldl_app. Qed.

(** Every listener of an assistant is the listener of the handler in
    force. *)
Lemma listener_in_force slot options registrations :
  listener slot (register_all registrations (constructor options))
  = slot_listener slot (handler_in_force slot options registrations).
Proof.
  induction registrations as [|[slot' handler] registrations IH] using rev_ind.
  - apply listener_constructor.
  - rewrite register_all_snoc. unfold handler_in_force.
    rewrite registered_last_snoc. simpl. destruct (decide (slot' = slot)) as [->|Hne].
    + apply listener_registered.
    + by rewrite listener_register_other.
Qed.

Lemma store_in_force options registrations :
  threadContextStore (register_all registrations (constructor options))
  = AssistantOptions.threadContextStore options.
Proof.
  induction registrations as [|[slot' handler] registrations IH] using rev_ind; [done|].
  by rewrite register_all_snoc, store_registered.
Qed.

(** A listener lets nothing through that fails its guard. *)
Lemma slot_listener_unmatched slot (h : option (Handler U)) req rt :
  guard slot req = false -> slot_listener slot h req rt = (rt, Resolved tt).
Proof. intros Hguard. unfold Assistant.slot_listener, try_catch. by rewrite Hguard. Qed.

(** The catch block on a value that is neither [undefined] nor [null]. *)
Lemma report_logs slot (e : JsValue) rt :
  e <> JsUndefined -> e <> JsNull ->
  report (listener_name slot) e rt
  = ({| world := world rt;
        errors := errors rt ++ [failure_line slot e];
        invoked := invoked rt |}, Resolved tt).
Proof. intros Hu Hn. by destruct e as [| | |? ? [stack|]]. Qed.

(** X1. An assistant is determined, slot by slot, by the handler in force:
    after the constructor and any sequence of registrations, the listener
    of a slot is the guarded, caught call of the handler registered last
    for it, else of the handler given in the options, else the default
    behaviour of the slot; the thread-context store is the one of the
    options. *)
Theorem assistant_by_handlers_in_force options registrations :
  let this := register_all registrations (constructor options) in
  (forall slot,
     listener slot this = slot_listener slot (handler_in_force slot options registrations)) /\
  threadContextStore this = AssistantOptions.threadContextStore options.
Proof.
  split; [intros slot; apply listener_in_force | apply store_in_force].
Qed.

(** X2. A request that fails the guard of a slot is ignored by its
    listener: the listener resolves, no handler is called, nothing is
    logged and the world is left as it was. *)
Theorem unmatched_request_is_ignored options registrations slot req rt :
  guard slot req = false ->
  listener slot (register_all registrations (constructor options)) req rt
  = (rt, Resolved tt).
Proof. intros Hguard. rewrite listener_in_force. by apply slot_listener_unmatched. Qed.

(** X3. On a request that passes the guard, the listener calls the handler
    in force once.  When the handler resolves, the listener resolves and
    logs nothing.  When the handler rejects with a value other than
    [undefined] and [null], the listener still resolves, keeps what the
    handler did to the world, and logs one line with its name and the stack
    of the value. *)
Theorem handler_failure_is_contained options registrations slot handler req rt :
  handler_in_force slot options registrations = Some handler ->
  guard slot req = true ->
  let this := register_all registrations (constructor options) in
  let called := invoked rt ++ [(slot, label handler)] in
  (forall u, run handler req (world rt) = (u, Resolved tt) ->
     listener slot this req rt
     = ({| world := u; errors := errors rt; invoked := called |}, Resolved tt)) /\
  (forall u e, run handler req (world rt) = (u, Rejected e) ->
     e <> JsUndefined -> e <> JsNull ->
     listener slot this req rt
     = ({| world := u; errors := errors rt ++ [failure_line slot e];
           invoked := called |}, Resolved tt)).
Proof.
  intros Hforce Hguard this called. unfold this.
  rewrite listener_in_force, Hforce.
  unfold Assistant.slot_listener, try_catch. rewrite Hguard.
  unfold call, bind, modify, in_world. simpl.
  split.
  - intros u Hrun. by rewrite Hrun.
  - intros u e Hrun Hu Hn. rewrite Hrun. by rewrite report_logs.
Qed.

(** X4. Registering a handler for one slot leaves the listeners of the other
    three slots, and the thread-context store, as they were. *)
Theorem registration_leaves_other_slots slot handler this :
  (forall other, other <> slot ->
     listener other (register slot handler this) = listener other this) /\
  threadContextStore (register slot handler this) = threadContextStore this.
Proof.
  split; [|apply store_registered].
  intros other Hne. apply listener_register_other. congruence.
Qed.

(** X5. How the two message guards relate.  Whatever passes the BotMessage
    guard passes the UserMessage guard; a "file_share" message passes the
    UserMessage guard only, whoever its user is; a message with any other
    subtype passes neither; and since the BotMessage guard compares with
    [===], a message without subtype and without user passes it when the
    context has no bot user id. *)
Theorem message_guards_related req :
  (bot_message_guard req = true -> user_message_guard req = true) /\
  (subtype (payload req) = Some "file_share" ->
   user_message_guard req = true /\ bot_message_guard req = false) /\
  (forall s, subtype (payload req) = Some s -> s <> "file_share" ->
   user_message_guard req = false /\ bot_message_guard req = false) /\
  (subtype (payload req) = None -> user (payload req) = None ->
   botUserId (context req) = None -> bot_message_guard req = true).
Proof.
  unfold user_message_guard, bot_message_guard.
  split; [|split; [|split]].
  - intros [Hsub _]%andb_true_iff. by rewrite Hsub.
  - intros Hsub. by rewrite Hsub.
  - intros s Hsub Hne. rewrite Hsub. simpl. split; [|done].
    rewrite bool_decide_false; [done|congruence].
  - intros Hsub Huser Hbot. by rewrite Hsub, Huser, Hbot.
Qed.

(** X6. The default of the ThreadStarted slot.  With no handler in force, on
    an assistant thread event the listener sends the greeting with [say]
    and then sets the suggested prompts, calling no handler.  When [say]
    rejects (with a value other than [undefined] and [null]) the prompts
    are not set, the failure is logged and the listener resolves. *)
Theorem default_thread_started options registrations req rt :
  handler_in_force ThreadStarted options registrations = None ->
  isAssitantThreadEvent (body req) = true ->
  let this := register_all registrations (constructor options) in
  let greeting := {| text := ":wave: Hi, how can I help you today?" |} in
  let suggested := {| title := "New chat"; prompts := ["What does SLACK stand for?"] |} in
  (forall u1 u2,
     say (context req) greeting (world rt) = (u1, Resolved tt) ->
     setSuggestedPrompts (context req) suggested u1 = (u2, Resolved tt) ->
     threadStartedHandler this req rt
     = ({| world := u2; errors := errors rt; invoked := invoked rt |}, Resolved tt)) /\
  (forall u1 e,
     say (context req) greeting (world rt) = (u1, Rejected e) ->
     e <> JsUndefined -> e <> JsNull ->
     threadStartedHandler this req rt
     = ({| world := u1; errors := errors rt ++ [failure_line ThreadStarted e];
           invoked := invoked rt |}, Resolved tt)).
Proof.
  intros Hforce Hguard this greeting suggested. unfold this.
  change (threadStartedHandler ?a) with (listener ThreadStarted a).
  rewrite listener_in_force, Hforce.
  unfold Assistant.slot_listener, try_catch. simpl. rewrite Hguard.
  unfold bind, in_world. simpl. fold greeting suggested. split.
  - intros u1 u2 Hsay Hset. by rewrite Hsay; simpl; rewrite Hset.
  - intros u1 e Hsay Hu Hn. rewrite Hsay.
    by rewrite (report_logs ThreadStarted).
Qed.

(** X7. The default of the ThreadContextChanged slot.  With no handler in
    force, on an assistant thread event the listener passes the context of
    the event's [assistant_thread] to [context.saveThreadContextStore] and
    calls no handler.  When the payload has no [assistant_thread], the read
    of its context throws inside the listener: nothing is saved, one line
    is logged and the listener resolves. *)
Theorem default_thread_context_changed options registrations req rt :
  handler_in_force ThreadContextChanged options registrations = None ->
  isAssitantThreadEvent (body req) = true ->
  let this := register_all registrations (constructor options) in
  (forall thread u,
     assistant_thread (payload req) = Some thread ->
     saveThreadContextStore (context req) (thread_context thread) (world rt)
     = (u, Resolved tt) ->
     threadContextChangedHandler this req rt
     = ({| world := u; errors := errors rt; invoked := invoked rt |}, Resolved tt)) /\
  (assistant_thread (payload req) = None ->
   exists line,
     threadContextChangedHandler this req rt
     = ({| world := world rt; errors := errors rt ++ [line]; invoked := invoked rt |},
        Resolved tt)).
Proof.
  intros Hforce Hguard this. unfold this.
  change (threadContextChangedHandler ?a) with (listener ThreadContextChanged a).
  rewrite listener_in_force, Hforce.
  unfold Assistant.slot_listener, try_catch. simpl. rewrite Hguard. split.
  - intros thread u Hthread Hsave. rewrite Hthread. unfold in_world.
    replace (spread (thread_context thread)) with (thread_context thread)
      by (by destruct (thread_context thread)).
    by rewrite Hsave.
  - intros Hthread. rewrite Hthread. by eexists.
Qed.

(** X8. The two message slots do nothing by default: with no handler in
    force, the listener of UserMessage and the listener of BotMessage
    resolve on every request without calling, logging or changing
    anything. *)
Theorem default_message_listeners_do_nothing options registrations slot req rt :
  slot = UserMessage \/ slot = BotMessage ->
  handler_in_force slot options registrations = None ->
  listener slot (register_all registrations (constructor options)) req rt
  = (rt, Resolved tt).
Proof.
  intros Hslot Hforce. rewrite listener_in_force, Hforce.
  unfold Assistant.slot_listener, try_catch.
  destruct Hslot as [-> | ->]; simpl.
  - by destruct (user_message_guard req).
  - by destruct (bot_message_guard req).
Qed.

(** User code and the default behaviours leave the log and the record of
    calls alone. *)
Lemma in_world_frame {A : Type} (c : Async U A) rt :
  errors (in_world c rt).1 = errors rt /\ invoked (in_world c rt).1 = invoked rt.
Proof. unfold in_world. by destruct (c (world rt)). Qed.

Lemma default_behaviour_frame slot req rt :
  errors (default_behaviour slot req rt).1 = errors rt /\
  invoked (default_behaviour slot req rt).1 = invoked rt.
Proof.
  destruct slot; simpl; try done.
  - unfold bind.
    pose proof (in_world_frame (say (context req)
      {| text := ":wave: Hi, how can I help you today?" |}) rt) as [He Hi].
    destruct (in_world _ rt) as [rt1 [[]|e]]; simpl in *; [|done].
    pose proof (in_world_frame (setSuggestedPrompts (context req)
      {| title := "New chat"; prompts := ["What does SLACK stand for?"] |}) rt1)
      as [He' Hi'].
    destruct (in_world _ rt1) as [rt2 r2]; simpl in *. split; congruence.
  - destruct (assistant_thread (payload req)); [apply in_world_frame | done].
Qed.

(** X16. What a listener can do at most.  After the constructor and any
    registrations, one call of a listener calls at most one handler and
    logs at most one line, and it never rejects with the error of the
    handler: its promise resolves, or rejects with the [TypeError] of
    reading [stack] of [undefined] or of [null]. *)
Theorem listener_footprint options registrations slot req rt :
  let this := register_all registrations (constructor options) in
  let after := (listener slot this req rt).1 in
  let completion := (listener slot this req rt).2 in
  (exists called, invoked after = invoked rt ++ called /\ length called <= 1) /\
  (exists lines, errors after = errors rt ++ lines /\ length lines <= 1) /\
  (completion = Resolved tt \/
   completion = Rejected (cannot_read "stack" "undefined") \/
   completion = Rejected (cannot_read "stack" "null")).
Proof.
  intros this after completion. unfold after, completion, this.
  rewrite listener_in_force. unfold Assistant.slot_listener.
  set (body := if guard slot req then
                 match handler_in_force slot options registrations with
                 | Some h => call slot h req
                 | None => default_behaviour slot req
                 end
               else ret tt).
  assert (exists called, errors (body rt).1 = errors rt /\
                         invoked (body rt).1 = invoked rt ++ called /\
                         length called <= 1) as (called & He & Hi & Hlen).
  { unfold body. destruct (guard slot req).
    - destruct (handler_in_force slot options registrations) as [h|].
      + exists [(slot, label h)]. unfold call, bind, modify, in_world. simpl.
        destruct (run h req (world rt)); simpl. by repeat split.
      + exists []. destruct (default_behaviour_frame slot req rt) as [He Hi].
        rewrite He, Hi, app_nil_r. repeat split. simpl. lia.
    - exists []. simpl. rewrite app_nil_r. repeat split. lia. }
  rewrite catch_block_run. destruct (body rt) as [rt1 [[]|e]]; simpl in *.
  - split; [by exists called|]. split; [|by left].
    exists []. rewrite app_nil_r. split; [done | simpl; lia].
  - destruct e as [| | s | name message stack]; simpl.
    + split; [by exists called|]. split; [|by right; left].
      exists []. rewrite app_nil_r. split; [done | simpl; lia].
    + split; [by exists called|]. split; [|by right; right].
      exists []. rewrite app_nil_r. split; [done | simpl; lia].
    + split; [by exists called|]. split; [|by left].
      eexists [_]. by rewrite He.
    + split; [by exists called|]. split; [|by left].
      eexists [_]. by rewrite He.
Qed.

End AssistantBehaviour.

Section AssistantBehaviourExamples.
Import Js Async ThreadContextStore Assistant.

Lemma unmatched_request_is_ignored_witness :
  guard has_event UserMessage edited_message = false /\
  listener UserMessage
    (register_all has_event [(UserMessage, noting "onUserMessage")]
       (constructor has_event both_registered))
    edited_message (initial_runtime [])
  = (initial_runtime [], Resolved tt).
Proof.
  split; [done|].
  exact (unmatched_request_is_ignored has_event both_registered
           [(UserMessage, noting "onUserMessage")] UserMessage edited_message
           (initial_runtime []) eq_refl).
Defined.

Lemma handler_failure_is_contained_witness :
  listener UserMessage
    (register_all has_event [(UserMessage, rejecting "onUserMessage" boom)]
       (constructor has_event both_registered))
    (message_from "U2") (initial_runtime [])
  = ({| world := [];
        errors := ["Failed to execute userMessageHandler listener: Error: boom at onUserMessage (app.ts:12:9)"];
        invoked := [(UserMessage, "onUserMessage")] |}, Resolved tt).
Proof.
  exact (proj2 (handler_failure_is_contained has_event both_registered
                  [(UserMessage, rejecting "onUserMessage" boom)] UserMessage
                  (rejecting "onUserMessage" boom) (message_from "U2")
                  (initial_runtime []) eq_refl eq_refl)
           [] boom eq_refl ltac:(done) ltac:(done)).
Defined.

Lemma default_thread_started_witness :
  threadStartedHandler
    (register_all has_event [(UserMessage, noting "onUserMessage")]
       (constructor has_event AssistantOptions.empty))
    (thread_event None) (initial_runtime [])
  = ({| world := ["say: :wave: Hi, how can I help you today?"; "prompts: New chat"];
        errors := []; invoked := [] |}, Resolved tt).
Proof.
  exact (proj1 (default_thread_started has_event AssistantOptions.empty
                  [(UserMessage, noting "onUserMessage")] (thread_event None)
                  (initial_runtime []) eq_refl eq_refl)
           _ _ eq_refl eq_refl).
Defined.

Lemma default_thread_context_changed_witness :
  threadContextChangedHandler (constructor has_event AssistantOptions.empty)
    (thread_event (Some {| thread_context := example_context |})) (initial_runtime [])
  = ({| world := ["context saved"]; errors := []; invoked := [] |}, Resolved tt).
Proof.
  exact (proj1 (default_thread_context_changed has_event AssistantOptions.empty []
                  (thread_event (Some {| thread_context := example_context |}))
                  (initial_runtime []) eq_refl eq_refl)
           _ _ eq_refl eq_refl).
Defined.

Lemma default_message_listeners_do_nothing_witness :
  listener BotMessage
    (register_all has_event [(UserMessage, noting "onUserMessage")]
       (constructor has_event AssistantOptions.empty))
    (message_from "BOT1") (initial_runtime [])
  = (initial_runtime [], Resolved tt).
Proof.
  exact (default_message_listeners_do_nothing has_event AssistantOptions.empty
           [(UserMessage, noting "onUserMessage")] BotMessage (message_from "BOT1")
           (initial_runtime []) (or_intror eq_refl) eq_refl).
Defined.

End AssistantBehaviourExamples.

Section ThreadContextStoreBehaviour.
Import Js Async ThreadContextStore.
Context {C : Type} `{SlackAPIClient C}.
Implicit Types (this : DefaultAssistantThreadContextStore) (key : AssistantThreadKey).
Implicit Types (env : Env C) (m message : Message) (msgs : list Message).

(** The lookup, by the anchor of the window. *)
Lemma lookup_run this key env :
  findFirstAssistantReply this key env =
  ({| client := (conversations_replies (replies_request key) (client env)).1;
      calls := calls env ++ [RepliesCall (replies_request key)];
      console := console env ++
        match (conversations_replies (replies_request key) (client env)).2 with
        | Resolved _ => []
        | Rejected e => [lookup_failure e]
        end |},
   Resolved (to_first_reply key <$> anchor this key (client env))).
Proof.
  rewrite findFirstAssistantReply_run. unfold anchor, lookup_window.
  destruct (conversations_replies (replies_request key) (client env)) as [c1 [response|e]];
    simpl; [|done].
  by rewrite first_assistant_reply_find, app_nil_r.
Qed.

Lemma find_by_anchor this key env :
  exists env',
    find this key env
    = (env', Resolved (event_payload <$> (anchor this key (client env) ≫= msg_metadata))).
Proof.
  eexists. unfold find, bind. rewrite lookup_run.
  by destruct (anchor this key (client env)) as [message|].
Qed.

(** X9. [find] only reads.  It makes one [conversations.replies] call and no
    other API call, and resolves with the payload of whatever metadata the
    anchor of the window carries - without looking at its event type - or
    with [undefined] when there is no anchor or the anchor has no metadata.
    It writes to the console only when the call fails. *)
Theorem find_reads_anchor_metadata this key env :
  exists env',
    find this key env
    = (env', Resolved (event_payload <$> (anchor this key (client env) ≫= msg_metadata))) /\
    calls env' = calls env ++ [RepliesCall (replies_request key)] /\
    console env' = console env ++
      match (conversations_replies (replies_request key) (client env)).2 with
      | Resolved _ => []
      | Rejected e => [lookup_failure e]
      end.
Proof.
  eexists. unfold find, bind. rewrite lookup_run.
  destruct (anchor this key (client env)) as [message|]; simpl; by repeat split.
Qed.

(** X10. The API calls of [save]: the lookup first, then one [chat.update]
    when the window has an anchor and none when it has not; never a second
    update.  [save] writes to the console only when the lookup call fails:
    a failure of the update is not logged by the store. *)
Theorem save_api_calls this key newContext env :
  exists env' completion,
    save this key newContext env = (env', completion) /\
    calls env' = calls env ++ RepliesCall (replies_request key) ::
      match anchor this key (client env) with
      | Some message => [UpdateCall (update_request (to_first_reply key message) newContext)]
      | None => []
      end /\
    console env' = console env ++
      match (conversations_replies (replies_request key) (client env)).2 with
      | Resolved _ => []
      | Rejected e => [lookup_failure e]
      end.
Proof.
  rewrite save_run, lookup_run.
  destruct (anchor this key (client env)) as [message|]; simpl.
  - unfold api_update. simpl.
    destruct (chat_update _ _) as [c2 completion].
    eexists _, completion. split; [done|]. simpl. by rewrite <- app_assoc.
  - by eexists _, _.
Qed.

(** [save], when its update goes through. *)
Lemma save_resolves this key newContext env message c2 :
  anchor this key (client env) = Some message ->
  chat_update (update_request (to_first_reply key message) newContext)
    (conversations_replies (replies_request key) (client env)).1
  = (c2, Resolved tt) ->
  exists env', save this key newContext env = (env', Resolved tt) /\ client env' = c2.
Proof.
  intros Hanchor Hupdate. rewrite save_run, lookup_run, Hanchor. simpl.
  unfold api_update. simpl. rewrite Hupdate. by eexists.
Qed.

(** The request of [save] is built from the timestamp, text and blocks of
    the anchor, which its own update leaves as they are. *)
Lemma update_request_after_edit key message c1 c2 :
  update_request (to_first_reply key
    (edit (update_request (to_first_reply key message) c1) message)) c2
  = update_request (to_first_reply key message) c2.
Proof.
  unfold edit. case_bool_decide; [|done].
  unfold update_request, to_first_reply. simpl.
  by destruct (msg_text message), (msg_blocks message).
Qed.

(** On a client that shows updates, the anchor after a save is the anchor
    before it, updated. *)
Lemma anchor_after_update `{!UpdatesAreVisible C} this key newContext (c0 c2 c3 : C)
    message response :
  anchor this key c0 = Some message ->
  chat_update (update_request (to_first_reply key message) newContext)
    (conversations_replies (replies_request key) c0).1
  = (c2, Resolved tt) ->
  conversations_replies (replies_request key) c2 = (c3, Resolved response) ->
  anchor this key c2
  = Some (edit (update_request (to_first_reply key message) newContext) message).
Proof.
  intros Hanchor Hupdate Hread.
  set (u := update_request (to_first_reply key message) newContext) in *.
  unfold anchor, lookup_window in *. rewrite Hread. simpl.
  destruct (conversations_replies (replies_request key) c0)
    as [c1 [[[msgs|]]|e]] eqn:Hfirst; simpl in *; try done.
  rewrite (updates_are_visible _ u _ _ _ _ _ _ Hfirst Hupdate eq_refl Hread). simpl.
  by rewrite find_edit, Hanchor.
Qed.

(** X11. The last save wins.  On a client that shows updates to later
    readers, when the window has an anchor and the calls go through, two
    saves followed by [find] resolve with the context of the second save:
    the metadata of the anchor is overwritten, and the anchor stays the
    anchor. *)
Theorem last_save_wins `{!UpdatesAreVisible C} this key context1 context2 env message
    (c2 c3 c4 c5 : C) response response' :
  anchor this key (client env) = Some message ->
  is_Some (msg_ts message) ->
  chat_update (update_request (to_first_reply key message) context1)
    (conversations_replies (replies_request key) (client env)).1
  = (c2, Resolved tt) ->
  conversations_replies (replies_request key) c2 = (c3, Resolved response) ->
  chat_update (update_request (to_first_reply key message) context2) c3
  = (c4, Resolved tt) ->
  conversations_replies (replies_request key) c4 = (c5, Resolved response') ->
  exists env1 env2 env3,
    save this key context1 env = (env1, Resolved tt) /\
    save this key context2 env1 = (env2, Resolved tt) /\
    find this key env2 = (env3, Resolved (Some context2)).
Proof.
  intros Hanchor Hts Hupdate1 Hread2 Hupdate2 Hread3.
  set (u1 := update_request (to_first_reply key message) context1) in *.
  destruct (save_resolves _ _ _ _ _ _ Hanchor Hupdate1) as (env1 & Hsave1 & Hc1).
  pose proof (anchor_after_update _ _ _ _ _ _ _ _ Hanchor Hupdate1 Hread2) as Hanchor1.
  fold u1 in Hanchor1. rewrite <- Hc1 in Hanchor1, Hread2.
  assert (chat_update (update_request (to_first_reply key (edit u1 message)) context2)
            (conversations_replies (replies_request key) (client env1)).1
          = (c4, Resolved tt)) as Hupdate2'.
  { unfold u1. by rewrite update_request_after_edit, Hread2. }
  destruct (save_resolves _ _ _ _ _ _ Hanchor1 Hupdate2') as (env2 & Hsave2 & Hc2).
  pose proof (anchor_after_update _ _ _ _ _ _ _ _ Hanchor1 Hupdate2' Hread3) as Hanchor2.
  unfold u1 in Hanchor2. rewrite update_request_after_edit in Hanchor2. fold u1 in Hanchor2.
  rewrite <- Hc2 in Hanchor2.
  destruct (find_by_anchor this key env2) as (env3 & Hfind).
  exists env1, env2, env3. split; [done|]. split; [done|].
  rewrite Hfind, Hanchor2. simpl. do 2 f_equal.
  unfold edit at 1. rewrite bool_decide_true.
  - simpl. by destruct context2.
  - split; [done|]. unfold edit, u1. simpl. by case_bool_decide.
Qed.

End ThreadContextStoreBehaviour.

Section ThreadContextStoreBehaviourExamples.
Import Js Async ThreadContextStore.

Lemma last_save_wins_witness :
  exists env1 env2 env3,
    save example_store example_key example_context (initial_env example_workspace)
    = (env1, Resolved tt) /\
    save example_store example_key later_context env1 = (env2, Resolved tt) /\
    find example_store example_key env2 = (env3, Resolved (Some later_context)).
Proof.
  eapply (last_save_wins example_store example_key example_context later_context
            (initial_env example_workspace) example_anchor).
  - by vm_compute.
  - by eexists.
  - by vm_compute.
  - by vm_compute.
  - by vm_compute.
  - by vm_compute.
Defined.

End ThreadContextStoreBehaviourExamples.

Section MessageEventsBehaviour.
Import MessageEvents.

(** X12. The two type guards read one property each.  [isPostedMessageEvent]
    looks at [subtype] only: events with the same subtype get the same
    answer, so an event without subtype counts as a posted message whatever
    its [type] is.  [isFunctionExecutedEvent] looks at [type] only, so a
    "function_executed" event satisfies it with any subtype. *)
Theorem type_guards_read_one_property :
  (forall e1 e2 : Event,
     subtype e1 = subtype e2 -> isPostedMessageEvent e1 = isPostedMessageEvent e2) /\
  (forall t : string, isPostedMessageEvent {| type := t; subtype := None |} = true) /\
  (forall e1 e2 : Event,
     type e1 = type e2 -> isFunctionExecutedEvent e1 = isFunctionExecutedEvent e2) /\
  (forall s : option string,
     isFunctionExecutedEvent {| type := "function_executed"; subtype := s |} = true) /\
  (forall e : Event,
     isFunctionExecutedEvent e = true <-> type e = "function_executed").
Proof.
  unfold isPostedMessageEvent, isFunctionExecutedEvent. repeat split.
  - intros e1 e2 Hsame. by rewrite Hsame.
  - intros e1 e2 Hsame. by rewrite Hsame.
  - apply bool_decide_eq_true.
  - apply bool_decide_eq_true.
Qed.

End MessageEventsBehaviour.

Section GuardsAndPostedMessages.
Import Js Async ThreadContextStore Assistant.
Context {U : Type}.

(** X13. The UserMessage guard of the assistant lets through only events
    that [isPostedMessageEvent] accepts, and not all of them: the posted
    message events it stops are exactly those with subtype "bot_message"
    or "thread_broadcast". *)
Theorem user_guard_within_posted_messages (req : Request U) (t : string) :
  let event := {| MessageEvents.type := t;
                  MessageEvents.subtype := subtype (payload req) |} in
  (user_message_guard req = true -> MessageEvents.isPostedMessageEvent event = true) /\
  (MessageEvents.isPostedMessageEvent event = true /\ user_message_guard req = false <->
   subtype (payload req) = Some "bot_message" \/
   subtype (payload req) = Some "thread_broadcast").
Proof.
  unfold user_message_guard, MessageEvents.isPostedMessageEvent. simpl.
  destruct (subtype (payload req)) as [s|]; simpl.
  - destruct (decide (s = "file_share")) as [->|Hfs].
    { split; [done|]. split; [by intros [_ ?] | by intros [[=]|[=]]]. }
    rewrite (bool_decide_false (Some s = Some "file_share")) by congruence.
    split; [done|].
    destruct (decide (s = "bot_message")) as [->|Hbm]; [by split; [left | split]|].
    destruct (decide (s = "thread_broadcast")) as [->|Htb]; [by split; [right | split]|].
    rewrite (bool_decide_false (Some s = Some "bot_message")) by congruence.
    rewrite (bool_decide_false (Some s = Some "thread_broadcast")) by congruence.
    simpl. split; [by intros [? _] | intros [[=]|[=]]; done].
  - split; [done|]. split; [by intros [_ ?] | by intros [[=]|[=]]].
Qed.

End GuardsAndPostedMessages.

Section PayloadTypesBehaviour.
Import Js PayloadTypes.

(** X14. The values of [enum PayloadType] are pairwise distinct, so a [type]
    tag names at most one member: looking a value up gives back the member
    it came from, and a tag that is found is the value of the member
    found.  The empty string and "command" are no member's value. *)
Theorem payload_type_values_distinct :
  (forall t1 t2 : PayloadType, value t1 = value t2 -> t1 = t2) /\
  (forall t : PayloadType, of_value (value t) = Some t) /\
  (forall (s : string) (t : PayloadType), of_value s = Some t -> value t = s) /\
  of_value "" = None /\ of_value "command" = None.
Proof.
  split; [|split; [|split]].
  - by intros [] [].
  - by intros [].
  - intros s t Hfound. unfold of_value in Hfound.
    apply find_some in Hfound as [_ Hvalue]. by apply bool_decide_eq_true in Hvalue.
  - by vm_compute.
Qed.

(** X15. The payload interfaces agree with the enum: each of the six typed
    interfaces among the sources ([BlockSuggestion], [MessageShortcut],
    [GlobalShortcut], [ViewSubmission], [ViewClosed], [AppRateLimited])
    declares as its [type] the value of the enum member of its name, while
    [interface SlashCommand] declares no [type] property at all and
    requires [command]. *)
Theorem interfaces_agree_with_enum :
  interface_type BlockSuggestion = Some (value BlockSuggestion) /\
  interface_type MessageShortcut = Some (value MessageShortcut) /\
  interface_type GlobalShortcut = Some (value GlobalShortcut) /\
  interface_type ViewSubmission = Some (value ViewSubmission) /\
  interface_type ViewClosed = Some (value ViewClosed) /\
  interface_type AppRateLimited = Some (value AppRateLimited) /\
  ("type" ∉ SlashCommand_required ++ SlashCommand_optional) /\
  ("command" ∈ SlashCommand_required).
Proof.
  repeat (split; [done|]). split.
  - refine (bool_decide_unpack _ _). by vm_compute.
  - refine (bool_decide_unpack _ _). by vm_compute.
Qed.

End PayloadTypesBehaviour.
